(** * The data model of the fastboat booking platform (app/models.py)

    The source file is a declarative SQLModel schema: string enumerations,
    fourteen persistent entities ([table=True]) and eight non-persistent
    request shapes ([table=False]).  The embedding keeps the declarations as
    data, one [Model] per class with its fields in source order and every
    keyword of [Field(...)] that the source writes, and gives the keywords
    their meaning in separate modules:

    - [models]   the declarations, transcribed from app/models.py;
    - [pydantic] what the constraints mean when a shape is validated;
    - [db]       the store behind the persistent entities;
    - [service]  the two operations the specification describes on top of
                 the model (patching a daily schedule, the activity query);
    - [sample]   concrete inputs used in the examples. *)

From Stdlib Require Import ZArith List Bool Ascii Lia.
From stdpp Require Import base gmap strings list fin_maps.

Local Open Scope string_scope.
Local Open Scope list_scope.
Local Open Scope Z_scope.
Local Set Warnings "-register-all".

(** ** Python values *)

(** [decimal.Decimal], as [Decimal.as_tuple()] shows a finite one: sign,
    the digits of the coefficient, the exponent. *)
Record Decimal := DecimalTuple {
  sign : bool;
  digits : list Z;
  exponent : Z
}.

(** [datetime.date], [datetime.time] and [datetime.datetime]. *)
Record date := Date { year : Z; month : Z; day : Z }.
Record time := Time { hour : Z; minute : Z; second : Z; microsecond : Z }.
Record datetime := Datetime { dt_date : date; dt_time : time }.

Inductive Value :=
| VNone
| VInt (z : Z)
| VStr (s : string)
| VBool (b : bool)
| VDecimal (d : Decimal)
| VDate (d : date)
| VTime (t : time)
| VDatetime (d : datetime)
| VList (l : list Value)
| VDict (d : list (string * Value)).

(** An object (a dict of keyword arguments, or the attributes of a model
    instance): attribute name to value. *)
Abbreviation obj := (gmap string Value).

#[global] Instance Decimal_eq_dec : EqDecision Decimal.
Proof. solve_decision. Defined.
#[global] Instance date_eq_dec : EqDecision date.
Proof. solve_decision. Defined.
#[global] Instance time_eq_dec : EqDecision time.
Proof. solve_decision. Defined.
#[global] Instance datetime_eq_dec : EqDecision datetime.
Proof. solve_decision. Defined.

(** Equality of values ([==]) is decidable, through the lists nested in
    [VList] and [VDict]. *)
#[global] Instance Value_eq_dec : EqDecision Value.
Proof.
  refine (fix go (a b : Value) {struct a} : Decision (a = b) :=
    let _ : EqDecision Value := go in
    match a, b with
    | VNone, VNone => left _
    | VInt x, VInt y => cast_if (decide (x = y))
    | VStr x, VStr y => cast_if (decide (x = y))
    | VBool x, VBool y => cast_if (decide (x = y))
    | VDecimal x, VDecimal y => cast_if (decide (x = y))
    | VDate x, VDate y => cast_if (decide (x = y))
    | VTime x, VTime y => cast_if (decide (x = y))
    | VDatetime x, VDatetime y => cast_if (decide (x = y))
    | VList x, VList y => cast_if (decide (x = y))
    | VDict x, VDict y => cast_if (decide (x = y))
    | _, _ => right _
    end); congruence.
Defined.

(** ** Declarations: annotations, [Field(...)] and classes *)

(** [class X(str, Enum)]: the members with their string values. *)
Record EnumClass := Enum {
  enum_name : string;
  members : list (string * string)
}.

(** Type annotations that occur in the source. *)
Inductive Ann :=
| TInt
| TStr
| TBool
| TDecimal
| TDate
| TTime
| TDatetime
| TAny
| TEnum (e : EnumClass)
| TOptional (t : Ann)
| TList (t : Ann)
| TDictStr (t : Ann).

Inductive DefaultSpec :=
| Undefined
| DefaultValue (v : Value)
| DefaultFactoryUtcnow.

Inductive SaColumn := JSON.

(** The keyword arguments of [Field] that the source uses. *)
Module Kw.
Inductive t :=
| default (v : Value)
| default_factory_utcnow
| primary_key (b : bool)
| unique (b : bool)
| foreign_key (target : string)
| max_length (n : nat)
| min_length (n : nat)
| ge (z : Z)
| max_digits (n : nat)
| decimal_places (n : nat)
| sa_column (c : SaColumn)
| description (s : string).
End Kw.

Record FieldInfo := mkFieldInfo {
  fi_default : DefaultSpec;
  fi_primary_key : bool;
  fi_unique : bool;
  fi_foreign_key : option string;
  fi_max_length : option nat;
  fi_min_length : option nat;
  fi_ge : option Z;
  fi_max_digits : option nat;
  fi_decimal_places : option nat;
  fi_sa_column : option SaColumn;
  fi_description : option string
}.

(** [Field()] with no argument: a required field without constraints. *)
Definition Field0 : FieldInfo :=
  mkFieldInfo Undefined false false None None None None None None None None.

Definition set_kw (fi : FieldInfo) (k : Kw.t) : FieldInfo :=
  let '(mkFieldInfo d pk u fk maxl minl g md dp sa de) := fi in
  match k with
  | Kw.default v => mkFieldInfo (DefaultValue v) pk u fk maxl minl g md dp sa de
  | Kw.default_factory_utcnow =>
      mkFieldInfo DefaultFactoryUtcnow pk u fk maxl minl g md dp sa de
  | Kw.primary_key b => mkFieldInfo d b u fk maxl minl g md dp sa de
  | Kw.unique b => mkFieldInfo d pk b fk maxl minl g md dp sa de
  | Kw.foreign_key s => mkFieldInfo d pk u (Some s) maxl minl g md dp sa de
  | Kw.max_length n => mkFieldInfo d pk u fk (Some n) minl g md dp sa de
  | Kw.min_length n => mkFieldInfo d pk u fk maxl (Some n) g md dp sa de
  | Kw.ge z => mkFieldInfo d pk u fk maxl minl (Some z) md dp sa de
  | Kw.max_digits n => mkFieldInfo d pk u fk maxl minl g (Some n) dp sa de
  | Kw.decimal_places n => mkFieldInfo d pk u fk maxl minl g md (Some n) sa de
  | Kw.sa_column c => mkFieldInfo d pk u fk maxl minl g md dp (Some c) de
  | Kw.description s => mkFieldInfo d pk u fk maxl minl g md dp sa (Some s)
  end.

Definition Field (kws : list Kw.t) : FieldInfo := fold_left set_kw kws Field0.

(** A class attribute written [name: ann] or [name: ann = None] carries no
    [Field(...)]. *)
Definition Bare : FieldInfo := Field0.
Definition BareNone : FieldInfo := Field [Kw.default VNone].

(** [Relationship(back_populates=..., sa_relationship_kwargs={"foreign_keys": ...})]. *)
Record RelationshipInfo := Relationship {
  rel_many : bool;
  rel_target : string;
  back_populates : string;
  rel_foreign_keys : option string
}.

Record Model := SQLModel {
  cls_name : string;
  table : bool;
  tablename : option string;
  fields : list (string * Ann * FieldInfo);
  relationships : list (string * RelationshipInfo)
}.

#[global] Instance EnumClass_eq_dec : EqDecision EnumClass.
Proof. solve_decision. Defined.
#[global] Instance Ann_eq_dec : EqDecision Ann.
Proof. solve_decision. Defined.
#[global] Instance DefaultSpec_eq_dec : EqDecision DefaultSpec.
Proof. solve_decision. Defined.
#[global] Instance SaColumn_eq_dec : EqDecision SaColumn.
Proof. solve_decision. Defined.
#[global] Instance FieldInfo_eq_dec : EqDecision FieldInfo.
Proof. solve_decision. Defined.
#[global] Instance RelationshipInfo_eq_dec : EqDecision RelationshipInfo.
Proof. solve_decision. Defined.
#[global] Instance Model_eq_dec : EqDecision Model.
Proof. solve_decision. Defined.

Definition field_names (m : Model) : list string :=
  map (fun f => f.1.1) (fields m).

Definition lookup_field (m : Model) (name : string) : option (Ann * FieldInfo) :=
  match List.find (fun f => bool_decide (f.1.1 = name)) (fields m) with
  | Some (_, a, fi) => Some (a, fi)
  | None => None
  end.

Definition declared_unique (m : Model) (name : string) : bool :=
  match lookup_field m name with
  | Some (_, fi) => fi_unique fi
  | None => false
  end.

(** ** app/models.py *)

Module models.
Import Kw.

(** *** Enums for status fields *)

Definition UserRole : EnumClass :=
  Enum "UserRole" [("CUSTOMER", "customer"); ("ADMIN", "admin")].

Definition BookingStatus : EnumClass :=
  Enum "BookingStatus"
    [("PENDING", "pending"); ("CONFIRMED", "confirmed");
     ("CANCELLED", "cancelled"); ("COMPLETED", "completed")].

Definition PaymentStatus : EnumClass :=
  Enum "PaymentStatus"
    [("PENDING", "pending"); ("PROCESSING", "processing");
     ("COMPLETED", "completed"); ("FAILED", "failed");
     ("REFUNDED", "refunded")].

Definition ScheduleStatus : EnumClass :=
  Enum "ScheduleStatus"
    [("ACTIVE", "active"); ("SUSPENDED", "suspended");
     ("CANCELLED", "cancelled")].

(** A member of a [str] enumeration is the string it stands for. *)
Definition UserRole_CUSTOMER : Value := VStr "customer".
Definition BookingStatus_PENDING : Value := VStr "pending".
Definition PaymentStatus_PENDING : Value := VStr "pending".
Definition ScheduleStatus_ACTIVE : Value := VStr "active".

(** The primary key every entity declares:
    [id: Optional[int] = Field(default=None, primary_key=True)]. *)
Definition id_field : string * Ann * FieldInfo :=
  ("id", TOptional TInt, Field [default VNone; primary_key true]).

(** [created_at] / [updated_at] and the other
    [datetime = Field(default_factory=datetime.utcnow)] columns. *)
Definition utcnow_field (name : string) : string * Ann * FieldInfo :=
  (name, TDatetime, Field [default_factory_utcnow]).

(** *** Language and Translation Models *)

Definition Language : Model :=
  SQLModel "Language" true (Some "languages")
    [ id_field;
      ("code", TStr, Field [unique true; max_length 5;
                            description "Language code (e.g., 'en', 'id')"]);
      ("name", TStr, Field [max_length 100; description "Language name in English"]);
      ("native_name", TStr, Field [max_length 100;
                                   description "Language name in native script"]);
      ("is_active", TBool, Field [default (VBool true)]);
      ("is_default", TBool, Field [default (VBool false)]);
      utcnow_field "created_at" ]
    [ ("translations", Relationship true "Translation" "language" None) ].

Definition Translation : Model :=
  SQLModel "Translation" true (Some "translations")
    [ id_field;
      ("key", TStr, Field [max_length 200; description "Translation key"]);
      ("value", TStr, Field [description "Translated text"]);
      ("language_id", TInt, Field [foreign_key "languages.id"]);
      utcnow_field "created_at";
      utcnow_field "updated_at" ]
    [ ("language", Relationship false "Language" "translations" None) ].

(** *** User Management *)

Definition User : Model :=
  SQLModel "User" true (Some "users")
    [ id_field;
      ("email", TStr, Field [unique true; max_length 255]);
      ("password_hash", TStr, Field [max_length 255]);
      ("first_name", TStr, Field [max_length 100]);
      ("last_name", TStr, Field [max_length 100]);
      ("phone", TOptional TStr, Field [default VNone; max_length 20]);
      ("role", TEnum UserRole, Field [default UserRole_CUSTOMER]);
      ("preferred_language", TStr, Field [default (VStr "en"); max_length 5]);
      ("is_active", TBool, Field [default (VBool true)]);
      utcnow_field "created_at";
      utcnow_field "updated_at" ]
    [ ("bookings", Relationship true "Booking" "user" None) ].

(** *** Location and Route Management *)

Definition Location : Model :=
  SQLModel "Location" true (Some "locations")
    [ id_field;
      ("code", TStr, Field [unique true; max_length 10;
                            description "Airport/port code"]);
      ("name", TStr, Field [max_length 200]);
      ("city", TStr, Field [max_length 100]);
      ("country", TStr, Field [max_length 100]);
      ("timezone", TStr, Field [max_length 50; default (VStr "UTC")]);
      ("is_active", TBool, Field [default (VBool true)]);
      utcnow_field "created_at" ]
    [ ("departure_routes",
       Relationship true "Route" "departure_location"
         (Some "Route.departure_location_id"));
      ("arrival_routes",
       Relationship true "Route" "arrival_location"
         (Some "Route.arrival_location_id")) ].

Definition Route : Model :=
  SQLModel "Route" true (Some "routes")
    [ id_field;
      ("departure_location_id", TInt, Field [foreign_key "locations.id"]);
      ("arrival_location_id", TInt, Field [foreign_key "locations.id"]);
      ("distance_km", TOptional TDecimal,
       Field [default VNone; max_digits 8; decimal_places 2]);
      ("estimated_duration_minutes", TInt,
       Field [description "Estimated travel time in minutes"]);
      ("is_active", TBool, Field [default (VBool true)]);
      utcnow_field "created_at" ]
    [ ("departure_location",
       Relationship false "Location" "departure_routes"
         (Some "Route.departure_location_id"));
      ("arrival_location",
       Relationship false "Location" "arrival_routes"
         (Some "Route.arrival_location_id"));
      ("schedules", Relationship true "Schedule" "route" None);
      ("seasonal_prices", Relationship true "SeasonalPrice" "route" None) ].

(** *** Fastboat and Schedule Management *)

Definition Fastboat : Model :=
  SQLModel "Fastboat" true (Some "fastboats")
    [ id_field;
      ("name", TStr, Field [max_length 200]);
      ("operator", TStr, Field [max_length 200]);
      ("capacity", TInt, Field [description "Maximum number of passengers"]);
      ("boat_type", TStr, Field [max_length 100; default (VStr "fastboat")]);
      ("facilities", TDictStr TAny,
       Field [default (VDict []); sa_column JSON;
              description "Available facilities"]);
      ("is_active", TBool, Field [default (VBool true)]);
      utcnow_field "created_at" ]
    [ ("schedules", Relationship true "Schedule" "fastboat" None) ].

Definition Schedule : Model :=
  SQLModel "Schedule" true (Some "schedules")
    [ id_field;
      ("route_id", TInt, Field [foreign_key "routes.id"]);
      ("fastboat_id", TInt, Field [foreign_key "fastboats.id"]);
      ("departure_time", TTime, Field [description "Daily departure time"]);
      ("arrival_time", TTime, Field [description "Daily arrival time"]);
      ("base_price", TDecimal, Field [max_digits 10; decimal_places 2]);
      ("currency", TStr, Field [default (VStr "USD"); max_length 3]);
      ("days_of_week", TList TInt,
       Field [default (VList []); sa_column JSON;
              description "Operating days (0=Monday)"]);
      ("effective_from", TDate, Field [description "Schedule start date"]);
      ("effective_until", TOptional TDate,
       Field [default VNone; description "Schedule end date"]);
      ("status", TEnum ScheduleStatus, Field [default ScheduleStatus_ACTIVE]);
      utcnow_field "created_at";
      utcnow_field "updated_at" ]
    [ ("route", Relationship false "Route" "schedules" None);
      ("fastboat", Relationship false "Fastboat" "schedules" None);
      ("daily_schedules", Relationship true "DailySchedule" "schedule" None) ].

Definition DailySchedule : Model :=
  SQLModel "DailySchedule" true (Some "daily_schedules")
    [ id_field;
      ("schedule_id", TInt, Field [foreign_key "schedules.id"]);
      ("travel_date", TDate, Field [description "Specific travel date"]);
      ("available_seats", TInt,
       Field [description "Available seats for this date"]);
      ("price_override", TOptional TDecimal,
       Field [default VNone; max_digits 10; decimal_places 2]);
      ("is_available", TBool, Field [default (VBool true)]);
      ("booking_deadline", TOptional TDatetime, Field [default VNone]);
      ("notes", TStr, Field [default (VStr ""); max_length 500]);
      utcnow_field "created_at";
      utcnow_field "updated_at" ]
    [ ("schedule", Relationship false "Schedule" "daily_schedules" None);
      ("bookings", Relationship true "Booking" "daily_schedule" None) ].

(** *** Seasonal Pricing *)

Definition SeasonalPrice : Model :=
  SQLModel "SeasonalPrice" true (Some "seasonal_prices")
    [ id_field;
      ("route_id", TInt, Field [foreign_key "routes.id"]);
      ("season_name", TStr,
       Field [max_length 100; description "Season name (e.g., 'High Season')"]);
      ("start_date", TDate,
       Field [description "Season start date (year-agnostic)"]);
      ("end_date", TDate, Field [description "Season end date (year-agnostic)"]);
      ("price_multiplier", TDecimal,
       Field [max_digits 5; decimal_places 3;
              description "Multiply base price by this"]);
      ("is_active", TBool, Field [default (VBool true)]);
      utcnow_field "created_at" ]
    [ ("route", Relationship false "Route" "seasonal_prices" None) ].

(** *** Booking Management *)

Definition Booking : Model :=
  SQLModel "Booking" true (Some "bookings")
    [ id_field;
      ("booking_reference", TStr,
       Field [unique true; max_length 20;
              description "Unique booking reference"]);
      ("user_id", TInt, Field [foreign_key "users.id"]);
      ("daily_schedule_id", TInt, Field [foreign_key "daily_schedules.id"]);
      ("passenger_count", TInt, Field [description "Number of passengers"]);
      ("total_amount", TDecimal, Field [max_digits 10; decimal_places 2]);
      ("currency", TStr, Field [default (VStr "USD"); max_length 3]);
      ("status", TEnum BookingStatus, Field [default BookingStatus_PENDING]);
      ("contact_email", TStr, Field [max_length 255]);
      ("contact_phone", TStr, Field [max_length 20]);
      ("special_requests", TStr, Field [default (VStr ""); max_length 1000]);
      ("booking_deadline", TDatetime,
       Field [description "Deadline for completing payment"]);
      utcnow_field "booked_at";
      ("confirmed_at", TOptional TDatetime, Field [default VNone]);
      ("cancelled_at", TOptional TDatetime, Field [default VNone]);
      ("cancellation_reason", TStr, Field [default (VStr ""); max_length 500]) ]
    [ ("user", Relationship false "User" "bookings" None);
      ("daily_schedule", Relationship false "DailySchedule" "bookings" None);
      ("passengers", Relationship true "Passenger" "booking" None);
      ("payments", Relationship true "Payment" "booking" None) ].

Definition Passenger : Model :=
  SQLModel "Passenger" true (Some "passengers")
    [ id_field;
      ("booking_id", TInt, Field [foreign_key "bookings.id"]);
      ("first_name", TStr, Field [max_length 100]);
      ("last_name", TStr, Field [max_length 100]);
      ("date_of_birth", TOptional TDate, Field [default VNone]);
      ("nationality", TOptional TStr, Field [default VNone; max_length 100]);
      ("passport_number", TOptional TStr, Field [default VNone; max_length 50]);
      ("id_number", TOptional TStr, Field [default VNone; max_length 50]);
      ("special_needs", TStr, Field [default (VStr ""); max_length 500]);
      utcnow_field "created_at" ]
    [ ("booking", Relationship false "Booking" "passengers" None) ].

(** *** Payment Management *)

Definition Payment : Model :=
  SQLModel "Payment" true (Some "payments")
    [ id_field;
      ("booking_id", TInt, Field [foreign_key "bookings.id"]);
      ("payment_reference", TStr,
       Field [unique true; max_length 100; description "Gateway reference"]);
      ("amount", TDecimal, Field [max_digits 10; decimal_places 2]);
      ("currency", TStr, Field [default (VStr "USD"); max_length 3]);
      ("payment_method", TStr,
       Field [max_length 50; description "credit_card, bank_transfer, etc."]);
      ("gateway_provider", TStr,
       Field [max_length 50; description "Stripe, PayPal, etc."]);
      ("gateway_transaction_id", TOptional TStr,
       Field [default VNone; max_length 255]);
      ("status", TEnum PaymentStatus, Field [default PaymentStatus_PENDING]);
      ("gateway_response", TDictStr TAny,
       Field [default (VDict []); sa_column JSON]);
      ("processed_at", TOptional TDatetime, Field [default VNone]);
      ("failed_at", TOptional TDatetime, Field [default VNone]);
      ("failure_reason", TStr, Field [default (VStr ""); max_length 500]);
      ("refunded_at", TOptional TDatetime, Field [default VNone]);
      ("refund_amount", TOptional TDecimal,
       Field [default VNone; max_digits 10; decimal_places 2]);
      utcnow_field "created_at";
      utcnow_field "updated_at" ]
    [ ("booking", Relationship false "Booking" "payments" None) ].

(** *** Admin Dashboard and Reports *)

Definition AdminAction : Model :=
  SQLModel "AdminAction" true (Some "admin_actions")
    [ id_field;
      ("admin_user_id", TInt, Field [foreign_key "users.id"]);
      ("action_type", TStr,
       Field [max_length 100; description "Type of action performed"]);
      ("resource_type", TStr,
       Field [max_length 100; description "Type of resource affected"]);
      ("resource_id", TOptional TInt,
       Field [default VNone; description "ID of affected resource"]);
      ("description", TStr, Field [max_length 500]);
      ("action_metadata", TDictStr TAny,
       Field [default (VDict []); sa_column JSON]);
      utcnow_field "created_at" ]
    [].

Definition SystemSettings : Model :=
  SQLModel "SystemSettings" true (Some "system_settings")
    [ id_field;
      ("key", TStr, Field [unique true; max_length 100]);
      ("value", TStr, Field [description "Setting value as string"]);
      ("data_type", TStr,
       Field [max_length 20; description "string, number, boolean, json"]);
      ("description", TStr, Field [default (VStr ""); max_length 500]);
      ("is_public", TBool,
       Field [default (VBool false);
              description "Can be accessed by frontend"]);
      utcnow_field "created_at";
      utcnow_field "updated_at" ]
    [].

(** *** Non-persistent schemas for API and forms *)

Definition UserCreate : Model :=
  SQLModel "UserCreate" false None
    [ ("email", TStr, Field [max_length 255]);
      ("password", TStr, Field [min_length 6]);
      ("first_name", TStr, Field [max_length 100]);
      ("last_name", TStr, Field [max_length 100]);
      ("phone", TOptional TStr, Field [default VNone; max_length 20]);
      ("preferred_language", TStr, Field [default (VStr "en"); max_length 5]) ]
    [].

Definition UserLogin : Model :=
  SQLModel "UserLogin" false None
    [ ("email", TStr, Field [max_length 255]);
      ("password", TStr, Bare) ]
    [].

Definition RouteSearch : Model :=
  SQLModel "RouteSearch" false None
    [ ("departure_location_id", TInt, Bare);
      ("arrival_location_id", TInt, Bare);
      ("travel_date", TDate, Bare);
      ("passenger_count", TInt, Field [default (VInt 1); ge 1]) ]
    [].

Definition BookingCreate : Model :=
  SQLModel "BookingCreate" false None
    [ ("daily_schedule_id", TInt, Bare);
      ("passenger_count", TInt, Field [ge 1]);
      ("contact_email", TStr, Field [max_length 255]);
      ("contact_phone", TStr, Field [max_length 20]);
      ("special_requests", TStr, Field [default (VStr ""); max_length 1000]);
      ("passengers", TList (TDictStr TAny),
       Field [description "Passenger details"]) ]
    [].

Definition PaymentCreate : Model :=
  SQLModel "PaymentCreate" false None
    [ ("booking_id", TInt, Bare);
      ("payment_method", TStr, Field [max_length 50]);
      ("gateway_provider", TStr, Field [max_length 50]);
      ("return_url", TStr,
       Field [description "URL to redirect after payment"]) ]
    [].

Definition ScheduleCreate : Model :=
  SQLModel "ScheduleCreate" false None
    [ ("route_id", TInt, Bare);
      ("fastboat_id", TInt, Bare);
      ("departure_time", TTime, Bare);
      ("arrival_time", TTime, Bare);
      ("base_price", TDecimal, Field [max_digits 10; decimal_places 2]);
      ("currency", TStr, Field [default (VStr "USD"); max_length 3]);
      ("days_of_week", TList TInt,
       Field [description "Operating days (0=Monday)"]);
      ("effective_from", TDate, Bare);
      ("effective_until", TOptional TDate, BareNone) ]
    [].

Definition DailyScheduleUpdate : Model :=
  SQLModel "DailyScheduleUpdate" false None
    [ ("available_seats", TOptional TInt, BareNone);
      ("price_override", TOptional TDecimal,
       Field [default VNone; max_digits 10; decimal_places 2]);
      ("is_available", TOptional TBool, BareNone);
      ("booking_deadline", TOptional TDatetime, BareNone);
      ("notes", TOptional TStr, Field [default VNone; max_length 500]) ]
    [].

Definition SalesReportFilters : Model :=
  SQLModel "SalesReportFilters" false None
    [ ("start_date", TDate, Bare);
      ("end_date", TDate, Bare);
      ("route_id", TOptional TInt, BareNone);
      ("fastboat_id", TOptional TInt, BareNone);
      ("status", TOptional (TEnum BookingStatus), BareNone) ]
    [].

(** Every class of the file, in source order. *)
Definition all : list Model :=
  [ Language; Translation; User; Location; Route; Fastboat; Schedule;
    DailySchedule; SeasonalPrice; Booking; Passenger; Payment; AdminAction;
    SystemSettings; UserCreate; UserLogin; RouteSearch; BookingCreate;
    PaymentCreate; ScheduleCreate; DailyScheduleUpdate; SalesReportFilters ].

End models.

(** The fields annotated [Decimal] or [Optional[Decimal]], class by class,
    with the [max_digits] and [decimal_places] they declare. *)
Definition is_decimal (a : Ann) : bool :=
  bool_decide (a = TDecimal) || bool_decide (a = TOptional TDecimal).

Definition decimal_fields (ms : list Model)
  : list (string * string * option nat * option nat) :=
  flat_map (fun m =>
    map (fun f => (cls_name m, f.1.1, fi_max_digits f.2, fi_decimal_places f.2))
      (List.filter (fun f => is_decimal f.1.2) (fields m))) ms.

(** The classes that declare a field of a given name. *)
Definition classes_with_field (name : string) (ms : list Model) : list Model :=
  List.filter (fun m => bool_decide (name ∈ field_names m)) ms.

(** ** The calendar of Python's [datetime] module *)

Definition is_leap (y : Z) : bool :=
  (y mod 4 =? 0) && (negb (y mod 100 =? 0) || (y mod 400 =? 0)).

Definition days_in_month (y m : Z) : Z :=
  if (m =? 2) && is_leap y then 29
  else nth (Z.to_nat m) [0; 31; 28; 31; 30; 31; 30; 31; 31; 30; 31; 30; 31] 0.

(** Number of days before January 1st of year [y]. *)
Definition days_before_year (y : Z) : Z :=
  let y' := y - 1 in
  y' * 365 + y' / 4 - y' / 100 + y' / 400.

(** Number of days in year [y] before the first day of month [m]. *)
Definition days_before_month (y m : Z) : Z :=
  nth (Z.to_nat m) [0; 0; 31; 59; 90; 120; 151; 181; 212; 243; 273; 304; 334] 0
  + (if (2 <? m) && is_leap y then 1 else 0).

(** [date.toordinal()]: 0001-01-01 is day 1. *)
Definition toordinal (d : date) : Z :=
  days_before_year (year d) + days_before_month (year d) (month d) + day d.

(** [date.weekday()]: Monday is 0, Sunday is 6. *)
Definition weekday (d : date) : Z := (toordinal d + 6) mod 7.

(** [MINYEAR <= year <= MAXYEAR], [1 <= month <= 12],
    [1 <= day <= days in that month]. *)
Definition valid_date (d : date) : bool :=
  (1 <=? year d) && (year d <=? 9999) &&
  (1 <=? month d) && (month d <=? 12) &&
  (1 <=? day d) && (day d <=? days_in_month (year d) (month d)).

Definition valid_time (t : time) : bool :=
  (0 <=? hour t) && (hour t <? 24) &&
  (0 <=? minute t) && (minute t <? 60) &&
  (0 <=? second t) && (second t <? 60) &&
  (0 <=? microsecond t) && (microsecond t <? 1000000).

Definition valid_datetime (d : datetime) : bool :=
  valid_date (dt_date d) && valid_time (dt_time d).

(** Dates compare as [(year, month, day)]. *)
Definition date_le (a b : date) : bool :=
  (year a <? year b)
  || ((year a =? year b)
      && ((month a <? month b)
          || ((month a =? month b) && (day a <=? day b)))).

(** The calendar day after [d] ([d + timedelta(days=1)]). *)
Definition tomorrow (d : date) : date :=
  if day d <? days_in_month (year d) (month d)
  then Date (year d) (month d) (day d + 1)
  else if month d <? 12
       then Date (year d) (month d + 1) 1
       else Date (year d + 1) 1 1.

(** ** Strings *)

(** A [str] is held as its UTF-8 encoding.  [len(s)] counts characters
    (code points), that is the bytes that are not continuation bytes
    ([10xxxxxx]). *)
Definition is_continuation_byte (c : ascii) : bool :=
  match c with
  | Ascii _ _ _ _ _ _ b6 b7 => b7 && negb b6
  end.

Fixpoint len (s : string) : nat :=
  match s with
  | EmptyString => 0%nat
  | String c s' => ((if is_continuation_byte c then 0 else 1) + len s')%nat
  end.

Definition digit_of_ascii (c : ascii) : option Z :=
  let n := Z.of_N (N_of_ascii c) in
  if (48 <=? n) && (n <=? 57) then Some (n - 48) else None.

Fixpoint parse_digits (s : string) (acc : Z) : option Z :=
  match s with
  | EmptyString => Some acc
  | String c s' =>
      match digit_of_ascii c with
      | Some x => parse_digits s' (10 * acc + x)
      | None => None
      end
  end.

(** The integer written by ASCII digits after an optional minus sign;
    [None] for any other string. *)
Definition parse_int (s : string) : option Z :=
  match s with
  | EmptyString => None
  | String c s' =>
      if Ascii.eqb c "-"%char
      then match s' with
           | EmptyString => None
           | _ => option_map Z.opp (parse_digits s' 0)
           end
      else parse_digits s 0
  end.

(** ** Decimals *)

(** The digit tuple of a [Decimal]: decimal digits, not empty, no leading
    zero except for the coefficient 0. *)
Definition valid_decimal (d : Decimal) : bool :=
  forallb (fun x => (0 <=? x) && (x <=? 9)) (digits d)
  && match digits d with
     | [] => false
     | [_] => true
     | x :: _ => negb (x =? 0)
     end.

(** The integer a digit tuple writes. *)
Definition coefficient (ds : list Z) : Z :=
  fold_left (fun acc x => 10 * acc + x) ds 0.

(** The decimal digits of a non-negative integer, most significant
    first. *)
Fixpoint to_digits_fuel (fuel : nat) (n : Z) (acc : list Z) : list Z :=
  match fuel with
  | O => n :: acc
  | S f =>
      if n <? 10 then n :: acc
      else to_digits_fuel f (n / 10) (n mod 10 :: acc)
  end.

Definition to_digits (n : Z) : list Z :=
  to_digits_fuel (Z.to_nat (Z.log2 n)) n [].

(** [Decimal(z)] for an [int]. *)
Definition Decimal_of_int (z : Z) : Decimal :=
  DecimalTuple (z <? 0) (to_digits (Z.abs z)) 0.

(** The default arithmetic context of the [decimal] module: 28 digits of
    precision, exponents between [Emin = -999999] and [Emax = 999999],
    rounding half to even, [Overflow] trapped. *)
Definition prec : Z := 28.
Definition Emax : Z := 999999.
Definition Etiny : Z := -1000026.
Definition Etop : Z := 999972.

(** Rounding a finite decimal to the context, as the unary plus does: the
    coefficient and exponent of the result, [None] when [Overflow] is
    raised. *)
Definition fix_context (d : Decimal) : option (Z * Z) :=
  let c := coefficient (digits d) in
  let L := Z.of_nat (length (digits d)) in
  let e := exponent d in
  if c =? 0 then Some (0, Z.min (Z.max e Etiny) Emax)
  else
    let exp_min0 := L + e - prec in
    if Etop <? exp_min0 then None
    else
      let exp_min := Z.max exp_min0 Etiny in
      if e <? exp_min then
        let keep := L + e - exp_min in
        let c1 := if keep <? 0 then 1 else c in
        let drop := if keep <? 0 then 1 else L - keep in
        let q := c1 / 10 ^ drop in
        let r := c1 mod 10 ^ drop in
        let half := 5 * 10 ^ (drop - 1) in
        let up := (half <? r) || ((r =? half) && Z.odd q) in
        let coeff := if up then q + 1 else q in
        let carry := up && (10 ^ prec <=? coeff) in
        let coeff' := if carry then coeff / 10 else coeff in
        let exp_min' := if carry then exp_min + 1 else exp_min in
        if Etop <? exp_min' then None else Some (coeff', exp_min')
      else Some (c, e).

(** Trailing zeros of the coefficient move into the exponent, as long as
    the exponent stays below [Emax]. *)
Fixpoint strip_zeros (fuel : nat) (c e : Z) : Z * Z :=
  match fuel with
  | O => (c, e)
  | S f =>
      if (c mod 10 =? 0) && (e <? Emax)
      then strip_zeros f (c / 10) (e + 1)
      else (c, e)
  end.

(** [Decimal.normalize()]: the value rounded to the context, without
    trailing zeros, zero as [Decimal('0')]; [None] when it raises. *)
Definition normalize (d : Decimal) : option Decimal :=
  match fix_context d with
  | None => None
  | Some (c, e) =>
      if c =? 0 then Some (DecimalTuple (sign d) [0] 0)
      else
        let '(c', e') := strip_zeros (S (Z.to_nat (Z.log2 c))) c e in
        Some (DecimalTuple (sign d) (to_digits c') e')
  end.

(** ** Validation of a shape against its declaration *)

(** Inputs are Python values.  A value of the annotated type is checked
    against the constraints of the field.  A value of another type goes
    through the conversions of pydantic's lax mode first; of these the model
    has the ones in [convert] and gives no verdict on the others (see
    [lax_conversion]).  The same check is used for every class; SQLModel
    runs it for a [table=True] class on [model_validate] and skips it when
    such a class is instantiated directly, so what is accepted here is
    accepted there as well. *)

Module pydantic.

Inductive ErrorType :=
| missing
| int_type
| string_type
| bool_type
| decimal_type
| date_type
| time_type
| datetime_type
| enum
| list_type
| dict_type
| greater_than_equal
| string_too_short
| string_too_long
| decimal_max_digits
| decimal_max_places
| decimal_whole_digits
| lax_conversion.

(** [lax_conversion] is not an error of pydantic.  It marks a value that is
    neither [None] nor of the annotated type and that [convert] leaves as it
    is: pydantic converts such a value where it can and reports a parsing
    error where it cannot; the model does neither, the field has no verdict
    and the input gets no instance. *)

#[global] Instance ErrorType_eq_dec : EqDecision ErrorType.
Proof. solve_decision. Defined.

(** [ge]. *)
Definition check_int (fi : FieldInfo) (z : Z) : list ErrorType :=
  match fi_ge fi with
  | Some bound => if z <? bound then [greater_than_equal] else []
  | None => []
  end.

(** [min_length], then [max_length], on the number of characters. *)
Definition check_str (fi : FieldInfo) (s : string) : list ErrorType :=
  let n := len s in
  match fi_min_length fi with
  | Some lo => if (n <? lo)%nat then [string_too_short] else
      match fi_max_length fi with
      | Some hi => if (hi <? n)%nat then [string_too_long] else []
      | None => []
      end
  | None =>
      match fi_max_length fi with
      | Some hi => if (hi <? n)%nat then [string_too_long] else []
      | None => []
      end
  end.

(** The number of digits and of decimal places of a [Decimal]: a
    non-negative exponent adds that many trailing zeros; a negative one
    makes that many decimals, and at least that many digits. *)
Definition decimal_digits_info (d : Decimal) : nat * nat :=
  let len := length (digits d) in
  if 0 <=? exponent d then ((len + Z.to_nat (exponent d))%nat, 0%nat)
  else
    let decimals := Z.to_nat (- exponent d) in
    (Nat.max len decimals, decimals).

(** [max_digits] and [decimal_places] are exceeded only when both the
    decimal as given and its normal form exceed them (the decimal as given
    stands for the normal form when [normalize] raises); the digits left of
    the point are counted on the decimal as given. *)
Definition check_decimal (fi : FieldInfo) (d : Decimal) : list ErrorType :=
  let '(ndigits, decimals) := decimal_digits_info d in
  let '(ndigits', decimals') := decimal_digits_info (default d (normalize d)) in
  let too_many_digits :=
    match fi_max_digits fi with
    | Some md => (md <? ndigits)%nat && (md <? ndigits')%nat
    | None => false
    end in
  if too_many_digits then [decimal_max_digits] else
  match fi_decimal_places fi with
  | Some dp =>
      if (dp <? decimals)%nat && (dp <? decimals')%nat then [decimal_max_places]
      else
      match fi_max_digits fi with
      | Some md =>
          if (md - dp <? ndigits - decimals)%nat then [decimal_whole_digits]
          else []
      | None => []
      end
  | None => []
  end.

(** The conversions of lax mode that the model has: [True] and [False] and
    a string of digits become an [int], an [int] becomes a [Decimal];
    [Optional] passes the value on, a list and a dict convert their
    elements.  Any other value is left as it is. *)
Fixpoint convert (a : Ann) (v : Value) : Value :=
  match a with
  | TInt =>
      match v with
      | VBool b => VInt (if b then 1 else 0)
      | VStr s => match parse_int s with Some z => VInt z | None => v end
      | _ => v
      end
  | TDecimal =>
      match v with
      | VInt z => VDecimal (Decimal_of_int z)
      | _ => v
      end
  | TOptional t => convert t v
  | TList t =>
      match v with
      | VList l => VList (map (convert t) l)
      | _ => v
      end
  | TDictStr t =>
      match v with
      | VDict d => VDict (map (fun kv => (kv.1, convert t kv.2)) d)
      | _ => v
      end
  | _ => v
  end.

(** The errors of one converted value against an annotation and the
    constraints of its [Field].  [None] is a type error everywhere except
    under [Optional]; [Optional] hands anything else, with the constraints,
    to the inner type; the elements of a list or a dict are checked against
    the element type alone. *)
Fixpoint validate (a : Ann) (fi : FieldInfo) (v : Value) : list ErrorType :=
  match a with
  | TAny => []
  | TInt =>
      match v with
      | VInt z => check_int fi z
      | VNone => [int_type]
      | _ => [lax_conversion]
      end
  | TStr =>
      match v with
      | VStr s => check_str fi s
      | VNone => [string_type]
      | _ => [lax_conversion]
      end
  | TBool =>
      match v with
      | VBool _ => []
      | VNone => [bool_type]
      | _ => [lax_conversion]
      end
  | TDecimal =>
      match v with
      | VDecimal d => if valid_decimal d then check_decimal fi d else [decimal_type]
      | VNone => [decimal_type]
      | _ => [lax_conversion]
      end
  | TDate =>
      match v with
      | VDate d => if valid_date d then [] else [date_type]
      | VNone => [date_type]
      | _ => [lax_conversion]
      end
  | TTime =>
      match v with
      | VTime t => if valid_time t then [] else [time_type]
      | VNone => [time_type]
      | _ => [lax_conversion]
      end
  | TDatetime =>
      match v with
      | VDatetime d => if valid_datetime d then [] else [datetime_type]
      | VNone => [datetime_type]
      | _ => [lax_conversion]
      end
  | TEnum e =>
      match v with
      | VStr s => if bool_decide (s ∈ map snd (members e)) then [] else [enum]
      | VNone => [enum]
      | _ => [lax_conversion]
      end
  | TOptional t =>
      match v with VNone => [] | _ => validate t fi v end
  | TList t =>
      match v with
      | VList l => flat_map (validate t Field0) l
      | VNone => [list_type]
      | _ => [lax_conversion]
      end
  | TDictStr t =>
      match v with
      | VDict d => flat_map (fun kv => validate t Field0 kv.2) d
      | VNone => [dict_type]
      | _ => [lax_conversion]
      end
  end.

(** The errors of one declared field, given what the input holds under
    its name: a supplied value is validated; an absent one is an error only
    when the field has no default (defaults are not validated). *)
Definition lookup_errors (a : Ann) (fi : FieldInfo) (supplied : option Value)
  : list ErrorType :=
  match supplied with
  | Some v => validate a fi (convert a v)
  | None =>
      match fi_default fi with
      | Undefined => [missing]
      | _ => []
      end
  end.

Definition field_errors (input : obj) (f : string * Ann * FieldInfo)
  : list (string * ErrorType) :=
  let '(name, a, fi) := f in
  map (pair name) (lookup_errors a fi (input !! name)).

(** What [datetime.utcnow] returns when it is called for the field of a
    given name: every [default_factory] field makes a call of its own. *)
Abbreviation Clock := (string -> datetime).

(** The value the instance gets for one declared field: the supplied value
    after conversion, or the declared default. *)
Definition field_value (now : Clock) (input : obj)
  (f : string * Ann * FieldInfo) : Value :=
  let '(name, a, fi) := f in
  match input !! name with
  | Some v => convert a v
  | None =>
      match fi_default fi with
      | DefaultValue d => d
      | DefaultFactoryUtcnow => VDatetime (now name)
      | Undefined => VNone
      end
  end.

(** All errors, each naming the offending field, in declaration order. *)
Definition validation_errors (m : Model) (input : obj)
  : list (string * ErrorType) :=
  flat_map (field_errors input) (fields m).

(** The instance: exactly the declared fields; keys of the input that the
    class does not declare are ignored. *)
Definition construct (now : Clock) (m : Model) (input : obj) : obj :=
  list_to_map (map (fun f => (f.1.1, field_value now input f)) (fields m)).

Definition model_validate (now : Clock) (m : Model) (input : obj)
  : list (string * ErrorType) + obj :=
  match validation_errors m input with
  | [] => inr (construct now m input)
  | errs => inl errs
  end.

End pydantic.

(** ** The store of the persistent entities *)

Module db.

(** One list of rows per [__tablename__]. *)
Abbreviation Store := (gmap string (list obj)).

Inductive Error :=
| NotATable
| ValidationError (errs : list (string * pydantic.ErrorType))
| IntegrityError (column : string).

Definition rows (m : Model) (st : Store) : list obj :=
  match tablename m with
  | Some t => default [] (st !! t)
  | None => []
  end.

Definition primary_keys (m : Model) : list string :=
  map (fun f => f.1.1) (List.filter (fun f => fi_primary_key f.2) (fields m)).

(** The columns that must not repeat: [unique=True] and the primary key. *)
Definition unique_columns (m : Model) : list string :=
  map (fun f => f.1.1)
    (List.filter (fun f => fi_unique f.2 || fi_primary_key f.2) (fields m)).

(** The next free integer key of a column. *)
Definition next_id (c : string) (rs : list obj) : Z :=
  1 + foldr (fun r acc =>
               match r !! c with
               | Some (VInt i) => Z.max i acc
               | _ => acc
               end) 0 rs.

(** A primary key left at [None] is generated by the store. *)
Definition assign_keys (pks : list string) (rs : list obj) (r : obj) : obj :=
  foldr (fun c r =>
           match r !! c with
           | Some VNone => <[c := VInt (next_id c rs)]> r
           | _ => r
           end) r pks.

(** A stored row already has the value of [r] in column [c] (a null never
    counts as a duplicate). *)
Definition duplicate (c : string) (r : obj) (rs : list obj) : bool :=
  existsb (fun r' =>
             match r' !! c, r !! c with
             | Some v', Some v => bool_decide (v ≠ VNone) && bool_decide (v' = v)
             | _, _ => false
             end) rs.

(** Modelled from the spec: the insert operation of the store is not in
    src/ (the file declares the tables only).  Following sections 3 and 7 of
    the specification, an insert fails on a constraint violation of the
    record (required field, length, enumeration membership, minimum value),
    fails when a column declared unique would get a value some row already
    has, sets the creation timestamp at insert time, and otherwise appends
    the new row to the table of the entity. *)
Definition insert (now : pydantic.Clock) (m : Model) (input : obj) (st : Store)
  : Error + Store :=
  match table m, tablename m with
  | true, Some t =>
      match pydantic.model_validate now m input with
      | inl errs => inl (ValidationError errs)
      | inr r =>
          let rs := default [] (st !! t) in
          let r' := assign_keys (primary_keys m) rs r in
          match List.find (fun c => duplicate c r' rs) (unique_columns m) with
          | Some c => inl (IntegrityError c)
          | None => inr (<[t := rs ++ [r']]> st)
          end
      end
  | _, _ => inl NotATable
  end.

(** The states of the store: empty at first, then changed by successful
    inserts of entities of this schema. *)
Inductive reachable : Store -> Prop :=
| reachable_empty : reachable ∅
| reachable_insert now m input st st' :
    reachable st ->
    m ∈ models.all ->
    insert now m input st = inr st' ->
    reachable st'.

(** What every stored row of an entity satisfies: no attribute beyond the
    declared fields, and a value in each column that must not repeat. *)
Definition row_ok (m : Model) (r : obj) : Prop :=
  (forall k, is_Some (r !! k) -> k ∈ field_names m)
  /\ (forall c, c ∈ unique_columns m -> exists v, r !! c = Some v /\ v <> VNone).

(** No two rows of a table agree on column [c]. *)
Definition no_duplicates (c : string) (rs : list obj) : Prop :=
  forall i j ri rj,
    rs !! i = Some ri -> rs !! j = Some rj -> ri !! c = rj !! c -> i = j.

Definition consistent (st : Store) : Prop :=
  forall m, m ∈ models.all ->
    Forall (row_ok m) (rows m st)
    /\ forall c, c ∈ unique_columns m -> no_duplicates c (rows m st).

End db.

(** ** Operations the specification describes on top of the model *)

Module service.

(** Modelled from the spec: the routine that applies a
    [DailyScheduleUpdate] to a [DailySchedule] is not in src/.  Section 4 of
    the specification gives it patch semantics: every field of the update
    is optional, a field that is absent (left at its default [None]) leaves
    the field of the record unchanged, a field that is present replaces
    it. *)
Definition apply_update (update : obj) (record : obj) : obj :=
  foldr (fun name r =>
           match update !! name with
           | None | Some VNone => r
           | Some v => <[name := v]> r
           end) record (field_names models.DailyScheduleUpdate).

(** Modelled from the spec: the query "is this schedule active on this
    date" is not in src/.  Sections 3 and 8 of the specification state the
    rule: the weekday of the date (0 = Monday) is one of [days_of_week], the
    date lies in [effective_from .. effective_until] (no upper end when
    [effective_until] is null), and the status is active. *)
Definition is_active_on (schedule : obj) (d : date) : bool :=
  match schedule !! "days_of_week", schedule !! "effective_from",
        schedule !! "effective_until", schedule !! "status" with
  | Some (VList days), Some (VDate from), Some until, Some status =>
      bool_decide (VInt (weekday d) ∈ days)
      && date_le from d
      && match until with
         | VNone => true
         | VDate u => date_le d u
         | _ => false
         end
      && bool_decide (status = models.ScheduleStatus_ACTIVE)
  | _, _, _, _ => false
  end.

End service.

(** ** Queries over the declarations *)

Definition is_optional (a : Ann) : bool :=
  match a with TOptional _ => true | _ => false end.

(** The annotation under [Optional[...]]. *)
Definition inner (a : Ann) : Ann :=
  match a with TOptional t => t | _ => a end.

Definition find_class (name : string) (ms : list Model) : option Model :=
  List.find (fun m => bool_decide (cls_name m = name)) ms.

(** The class whose table and primary key a [foreign_key="table.column"]
    names. *)
Definition referenced (target : string) (ms : list Model) : option Model :=
  List.find (fun m' =>
    match tablename m' with
    | Some t =>
        existsb (fun pk => bool_decide (target = (t +:+ "." +:+ pk)))
          (db.primary_keys m')
    | None => false
    end) ms.

(** The columns of [child] whose [foreign_key] names the [id] of the table
    of [parent]. *)
Definition fk_columns (child parent : Model) : list string :=
  match tablename parent with
  | Some t =>
      map (fun f => f.1.1)
        (List.filter (fun f => bool_decide (fi_foreign_key f.2 = Some (t +:+ ".id")))
           (fields child))
  | None => []
  end.

(** The [(class, field)] pairs declared [unique=True]. *)
Definition unique_fields (ms : list Model) : list (string * string) :=
  flat_map (fun m =>
    map (fun f => (cls_name m, f.1.1))
      (List.filter (fun f => fi_unique f.2) (fields m))) ms.

(** The [(class, field)] pairs that declare a [ge] bound. *)
Definition bounded_fields (ms : list Model) : list (string * string * Z) :=
  flat_map (fun m =>
    flat_map (fun f =>
      match fi_ge f.2 with
      | Some b => [(cls_name m, f.1.1, b)]
      | None => []
      end) (fields m)) ms.

(** A constraint that is absent, or the same as on the other side. *)
Definition weaker {A : Type} `{EqDecision A} (c' c : option A) : bool :=
  bool_decide (c' = None \/ c' = c).

(** The constraints of [fi'] ask no more than those of [fi]. *)
Definition no_stricter (fi' fi : FieldInfo) : bool :=
  weaker (fi_ge fi') (fi_ge fi)
  && weaker (fi_min_length fi') (fi_min_length fi)
  && weaker (fi_max_length fi') (fi_max_length fi)
  && weaker (fi_max_digits fi') (fi_max_digits fi)
  && weaker (fi_decimal_places fi') (fi_decimal_places fi).

(** Each request shape with the entity it feeds. *)
Definition shape_entity_pairs : list (Model * Model) :=
  [ (models.UserCreate, models.User);
    (models.BookingCreate, models.Booking);
    (models.PaymentCreate, models.Payment);
    (models.ScheduleCreate, models.Schedule);
    (models.DailyScheduleUpdate, models.DailySchedule) ].

(** ** Sample inputs *)

Module sample.

Definition now : datetime := Datetime (Date 2024 6 1) (Time 12 0 0 0).

(** A clock that answers [now] to every call. *)
Definition clock : pydantic.Clock := fun _ => now.

(** [Decimal("25.00")]. *)
Definition price : Decimal := DecimalTuple false [2; 5; 0; 0] (-2).

(** Keyword arguments for [Schedule] and [ScheduleCreate]; [days] is left
    out when [None]. *)
Definition schedule (days : option (list Z)) : obj :=
  let base : obj :=
    list_to_map
      [ ("route_id", VInt 1); ("fastboat_id", VInt 1);
        ("departure_time", VTime (Time 8 0 0 0));
        ("arrival_time", VTime (Time 9 30 0 0));
        ("base_price", VDecimal price);
        ("effective_from", VDate (Date 2024 1 1)) ] in
  match days with
  | Some l => <["days_of_week" := VList (VInt <$> l)]> base
  | None => base
  end.

Definition route (departure arrival : Z) : obj :=
  list_to_map
    [ ("departure_location_id", VInt departure);
      ("arrival_location_id", VInt arrival);
      ("estimated_duration_minutes", VInt 90) ].

Definition booking (passenger_count : Z) (passengers : list (list (string * Value)))
  : obj :=
  list_to_map
    [ ("daily_schedule_id", VInt 1);
      ("passenger_count", VInt passenger_count);
      ("contact_email", VStr "ana@example.org");
      ("contact_phone", VStr "+62 361 000000");
      ("passengers", VList (VDict <$> passengers)) ].

Definition user (email : string) : obj :=
  list_to_map
    [ ("email", VStr email); ("password_hash", VStr "$2b$12$abcdefgh");
      ("first_name", VStr "Ana"); ("last_name", VStr "Putri") ].

(** The store after one user has registered. *)
Definition one_user : db.Store :=
  match db.insert clock models.User (user "ana@example.org") ∅ with
  | inr st => st
  | inl _ => ∅
  end.

End sample.

(** * Properties *)

(** ** The declarations are well formed *)

(** No class declares a field twice. *)
Lemma field_names_NoDup (m : Model) :
  m ∈ models.all -> NoDup (field_names m).
Proof.
  intros Hm.
  assert (Hall : Forall (fun m => NoDup (field_names m)) models.all).
  { apply (bool_decide_unpack _). vm_compute. exact I. }
  rewrite Forall_forall in Hall. apply Hall. exact Hm.
Qed.

(** Field lookup by name agrees with membership in the declaration. *)
Lemma lookup_field_Some (m : Model) (name : string) (a : Ann) (fi : FieldInfo) :
  NoDup (field_names m) ->
  (name, a, fi) ∈ fields m <-> lookup_field m name = Some (a, fi).
Proof.
  unfold lookup_field, field_names.
  induction (fields m) as [|[[n' a'] fi'] l IH]; intros Hnd; simpl.
  - split; [intros H; inversion H | discriminate].
  - simpl in Hnd. apply NoDup_cons in Hnd as [Hnotin Hnd].
    rewrite elem_of_cons. case_bool_decide as Heq; simpl in Heq.
    + subst n'. split.
      * intros [H | H]; [congruence |].
        exfalso. apply Hnotin.
        apply list_elem_of_fmap. exists (name, a, fi). split; [reflexivity | exact H].
      * intros H. left. congruence.
    + rewrite <- (IH Hnd). split.
      * intros [H | H]; [congruence | exact H].
      * intros H. right. exact H.
Qed.

Lemma lookup_field_None (m : Model) (name : string) :
  lookup_field m name = None <-> name ∉ field_names m.
Proof.
  unfold lookup_field, field_names.
  induction (fields m) as [|[[n' a'] fi'] l IH]; simpl.
  - split; [intros _ H; inversion H | reflexivity].
  - rewrite not_elem_of_cons. case_bool_decide as Heq; simpl in Heq.
    + split; [discriminate | intros [H _]; congruence].
    + rewrite IH. split; [intros H; split; [congruence | exact H] | intros [_ H]; exact H].
Qed.

(** ** What validation reports, field by field *)

Section validation.
Import pydantic.
Context (now : Clock) (m : Model) (input : obj).

Lemma field_errors_name (f : string * Ann * FieldInfo) (name : string) (e : ErrorType) :
  (name, e) ∈ field_errors input f ->
  name = f.1.1 /\ e ∈ lookup_errors f.1.2 f.2 (input !! name).
Proof.
  destruct f as [[n a] fi]; simpl.
  rewrite list_elem_of_fmap. intros (e' & Heq & He').
  injection Heq as -> ->. split; [reflexivity | exact He'].
Qed.

(** An error names a field exactly when the declaration of that field
    rejects what the input supplies under this name. *)
Lemma elem_of_validation_errors (name : string) (e : ErrorType) :
  (name, e) ∈ validation_errors m input <->
  exists a fi, (name, a, fi) ∈ fields m /\ e ∈ lookup_errors a fi (input !! name).
Proof.
  unfold validation_errors. rewrite list_elem_of_In, in_flat_map. split.
  - intros ([[n a] fi] & Hin & He). apply list_elem_of_In in Hin, He.
    apply field_errors_name in He as [-> He]. simpl in He.
    exists a, fi. split; assumption.
  - intros (a & fi & Hin & He). exists (name, a, fi).
    rewrite <- !list_elem_of_In. split; [exact Hin |].
    simpl. apply list_elem_of_fmap. exists e. split; [reflexivity | exact He].
Qed.

Lemma validation_errors_at (name : string) (a : Ann) (fi : FieldInfo) (e : ErrorType) :
  NoDup (field_names m) ->
  lookup_field m name = Some (a, fi) ->
  (name, e) ∈ validation_errors m input <-> e ∈ lookup_errors a fi (input !! name).
Proof.
  intros Hnd Hlk. rewrite elem_of_validation_errors. split.
  - intros (a' & fi' & Hin & He).
    apply (lookup_field_Some m name a' fi' Hnd) in Hin.
    rewrite Hlk in Hin. injection Hin as <- <-. exact He.
  - intros He. exists a, fi. split; [| exact He].
    apply lookup_field_Some; assumption.
Qed.

Lemma model_validate_inr (r : obj) :
  model_validate now m input = inr r <->
  validation_errors m input = [] /\ r = construct now m input.
Proof.
  unfold model_validate. destruct (validation_errors m input) as [|e l].
  - split; [intros [= <-]; auto | intros [_ ->]; reflexivity].
  - split; [discriminate | intros [H _]; discriminate].
Qed.

Lemma model_validate_inl (errs : list (string * ErrorType)) :
  model_validate now m input = inl errs <->
  validation_errors m input = errs /\ errs <> [].
Proof.
  unfold model_validate. destruct (validation_errors m input) as [|e l].
  - split; [discriminate | intros [<- H]; congruence].
  - split; [intros [= <-]; split; [reflexivity | discriminate]
           | intros [<- _]; reflexivity].
Qed.

(** The instance has the declared fields and no other attribute. *)
Lemma construct_lookup (name : string) (a : Ann) (fi : FieldInfo) :
  NoDup (field_names m) ->
  (name, a, fi) ∈ fields m ->
  construct now m input !! name = Some (field_value now input (name, a, fi)).
Proof.
  intros Hnd Hin. unfold construct. apply elem_of_list_to_map_1.
  - rewrite <- list_fmap_compose. exact Hnd.
  - apply list_elem_of_fmap. exists (name, a, fi). split; [reflexivity | exact Hin].
Qed.

Lemma construct_lookup_None (name : string) :
  name ∉ field_names m -> construct now m input !! name = None.
Proof.
  intros Hnot. unfold construct. apply not_elem_of_list_to_map_1.
  rewrite <- list_fmap_compose. exact Hnot.
Qed.

End validation.

(** ** Minimum values and lengths of the request shapes *)

(** Closed, decidable facts about the declarations are settled by
    evaluation. *)
Ltac by_evaluation :=
  apply (bool_decide_unpack _); vm_compute; exact I.

Section request_shapes.
Import pydantic.

(** C2. [RouteSearch] and [BookingCreate] reject an input on account of
    [passenger_count] exactly when the count is below 1: then validation
    fails with [greater_than_equal] at that field; from 1 on no error names
    the field, and an input with no other fault is accepted. *)
Theorem passenger_count_rejected_below_one
  (m : Model) (now : Clock) (input : obj) (n : Z) :
  m = models.RouteSearch \/ m = models.BookingCreate ->
  input !! "passenger_count" = Some (VInt n) ->
  ((exists e, ("passenger_count", e) ∈ validation_errors m input) <-> n < 1)
  /\ (n < 1 ->
      ("passenger_count", greater_than_equal) ∈ validation_errors m input
      /\ exists errs, model_validate now m input = inl errs)
  /\ ((forall name e, (name, e) ∈ validation_errors m input ->
                      name = "passenger_count") ->
      ((exists r, model_validate now m input = inr r) <-> 1 <= n)).
Proof.
  intros Hm Hin.
  assert (Hat : forall e, ("passenger_count", e) ∈ validation_errors m input
                          <-> e ∈ (if n <? 1 then [greater_than_equal] else [])).
  { intros e. destruct Hm as [-> | ->].
    - rewrite (validation_errors_at _ _ "passenger_count" TInt
                 (Field [Kw.default (VInt 1); Kw.ge 1]));
        [| by_evaluation | reflexivity].
      rewrite Hin. reflexivity.
    - rewrite (validation_errors_at _ _ "passenger_count" TInt (Field [Kw.ge 1]));
        [| by_evaluation | reflexivity].
      rewrite Hin. reflexivity. }
  assert (Hlow : n < 1 ->
                 ("passenger_count", greater_than_equal) ∈ validation_errors m input).
  { intros Hn. apply Hat. apply Z.ltb_lt in Hn. rewrite Hn. apply list_elem_of_here. }
  assert (Hhigh : 1 <= n -> forall e, ("passenger_count", e) ∉ validation_errors m input).
  { intros Hn e He. apply Hat in He.
    apply Z.ltb_ge in Hn. rewrite Hn in He. inversion He. }
  split; [| split].
  - split.
    + intros [e He]. destruct (Z.lt_ge_cases n 1) as [Hn | Hn]; [exact Hn |].
      exfalso. exact (Hhigh Hn e He).
    + intros Hn. exists greater_than_equal. exact (Hlow Hn).
  - intros Hn. split; [exact (Hlow Hn) |].
    exists (validation_errors m input). apply model_validate_inl.
    split; [reflexivity |]. intros Hnil. specialize (Hlow Hn).
    rewrite Hnil in Hlow. inversion Hlow.
  - intros Honly. split.
    + intros [r Hr]. apply model_validate_inr in Hr as [Hnil _].
      destruct (Z.lt_ge_cases n 1) as [Hn | Hn]; [| exact Hn].
      exfalso. specialize (Hlow Hn). rewrite Hnil in Hlow. inversion Hlow.
    + intros Hn. exists (construct now m input). apply model_validate_inr.
      split; [| reflexivity].
      destruct (validation_errors m input) as [|[name e] l] eqn:Herrs;
        [reflexivity |].
      exfalso. assert (Hname : name = "passenger_count").
      { apply (Honly name e). apply list_elem_of_here. }
      subst name. apply (Hhigh Hn e). apply list_elem_of_here.
Qed.

Lemma passenger_count_rejected_below_one_witness :
  ("passenger_count", greater_than_equal)
    ∈ validation_errors models.RouteSearch {[ "passenger_count" := VInt 0 ]}.
Proof.
  destruct (passenger_count_rejected_below_one models.RouteSearch
              sample.clock
              {[ "passenger_count" := VInt 0 ]} 0) as (_ & Hlow & _).
  - left. reflexivity.
  - vm_compute. reflexivity.
  - apply Hlow. lia.
Defined.

(** C9. [UserCreate] rejects a password of fewer than 6 characters (error
    [string_too_short], validation fails) and raises nothing against a
    password of 6 characters or more; [UserLogin] raises nothing against
    any password string; and [UserCreate.password] is the only field of the
    whole file that declares a [min_length]. *)
Theorem password_min_length_only_on_create
  (now : Clock) (input : obj) (s : string) :
  input !! "password" = Some (VStr s) ->
  ((exists e, ("password", e) ∈ validation_errors models.UserCreate input)
   <-> (len s < 6)%nat)
  /\ ((len s < 6)%nat ->
      ("password", string_too_short) ∈ validation_errors models.UserCreate input
      /\ exists errs, model_validate now models.UserCreate input = inl errs)
  /\ (forall e, ("password", e) ∉ validation_errors models.UserLogin input)
  /\ (forall m name a fi,
        m ∈ models.all -> (name, a, fi) ∈ fields m -> fi_min_length fi <> None ->
        m = models.UserCreate /\ name = "password"
        /\ fi_min_length fi = Some 6%nat).
Proof.
  intros Hin.
  assert (Hat : forall e, ("password", e) ∈ validation_errors models.UserCreate input
                          <-> e ∈ (if (len s <? 6)%nat
                                   then [string_too_short] else [])).
  { intros e.
    rewrite (validation_errors_at _ _ "password" TStr (Field [Kw.min_length 6]));
      [| by_evaluation | reflexivity].
    rewrite Hin. reflexivity. }
  assert (Hshort : (len s < 6)%nat ->
                   ("password", string_too_short)
                     ∈ validation_errors models.UserCreate input).
  { intros Hn. apply Hat. apply Nat.ltb_lt in Hn. rewrite Hn. apply list_elem_of_here. }
  split; [| split; [| split]].
  - split.
    + intros [e He]. apply Hat in He.
      destruct (len s <? 6)%nat eqn:Hlt; [| inversion He].
      apply Nat.ltb_lt. exact Hlt.
    + intros Hn. exists string_too_short. exact (Hshort Hn).
  - intros Hn. split; [exact (Hshort Hn) |].
    exists (validation_errors models.UserCreate input). apply model_validate_inl.
    split; [reflexivity |]. intros Hnil. specialize (Hshort Hn).
    rewrite Hnil in Hshort. inversion Hshort.
  - intros e He.
    rewrite (validation_errors_at _ _ "password" TStr Bare) in He;
      [| by_evaluation | reflexivity].
    rewrite Hin in He. inversion He.
  - intros m name a fi Hm Hf Hmin.
    assert (Hall : Forall (fun m =>
              Forall (fun f => fi_min_length f.2 <> None ->
                               m = models.UserCreate /\ f.1.1 = "password"
                               /\ fi_min_length f.2 = Some 6%nat) (fields m))
              models.all) by by_evaluation.
    rewrite Forall_forall in Hall. specialize (Hall m Hm).
    rewrite Forall_forall in Hall. exact (Hall (name, a, fi) Hf Hmin).
Qed.

Lemma password_min_length_only_on_create_witness :
  ("password", string_too_short)
    ∈ validation_errors models.UserCreate {[ "password" := VStr "парол" ]}.
Proof.
  destruct (password_min_length_only_on_create
              sample.clock
              {[ "password" := VStr "парол" ]} "парол") as (_ & Hshort & _).
  - vm_compute. reflexivity.
  - apply Hshort. vm_compute. lia.
Defined.

Lemma validate_int_list (days : list Z) :
  flat_map (validate TInt Field0) (VInt <$> days) = [].
Proof. induction days as [|z l IH]; [reflexivity | exact IH]. Qed.

Lemma validate_dict_any (d : list (string * Value)) :
  validate (TDictStr TAny) Field0 (VDict d) = [].
Proof. simpl. induction d as [|kv d IHd]; [reflexivity | exact IHd]. Qed.

Lemma validate_dict_list (ds : list (list (string * Value))) :
  flat_map (validate (TDictStr TAny) Field0) (VDict <$> ds) = [].
Proof.
  induction ds as [|d l IH]; [reflexivity |].
  change (validate (TDictStr TAny) Field0 (VDict d)
          ++ flat_map (validate (TDictStr TAny) Field0) (VDict <$> l) = []).
  rewrite validate_dict_any, IH. reflexivity.
Qed.

Lemma convert_int_list (days : list Z) :
  map (convert TInt) (VInt <$> days) = VInt <$> days.
Proof. induction days as [|z l IH]; [reflexivity |]. simpl. f_equal. exact IH. Qed.

Lemma lookup_errors_int_list (fi : FieldInfo) (days : list Z) :
  lookup_errors (TList TInt) fi (Some (VList (VInt <$> days))) = [].
Proof. simpl. rewrite convert_int_list. apply validate_int_list. Qed.

Lemma lookup_errors_dict_list (fi : FieldInfo) (ds : list (list (string * Value))) :
  lookup_errors (TList (TDictStr TAny)) fi (Some (VList (VDict <$> ds))) = [].
Proof.
  change (flat_map (validate (TDictStr TAny) Field0)
            (map (convert (TDictStr TAny)) (VDict <$> ds)) = []).
  induction ds as [|d l IH]; [reflexivity |].
  change (validate (TDictStr TAny) Field0 (convert (TDictStr TAny) (VDict d))
          ++ flat_map (validate (TDictStr TAny) Field0)
               (map (convert (TDictStr TAny)) (VDict <$> l)) = []).
  rewrite IH, app_nil_r.
  exact (validate_dict_any (map (fun kv => (kv.1, convert TAny kv.2)) d)).
Qed.

(** C10. Neither [Schedule] nor [ScheduleCreate] looks at the integers of
    [days_of_week]: whatever they are, no error names the field; an input
    with the days 7 and -1 is accepted by both and keeps them; and a
    [Schedule] built without [days_of_week] gets the empty list. *)
Theorem days_of_week_range_unchecked (now : Clock) :
  (forall m input days,
      m = models.Schedule \/ m = models.ScheduleCreate ->
      input !! "days_of_week" = Some (VList (VInt <$> days)) ->
      forall e, ("days_of_week", e) ∉ validation_errors m input)
  /\ (forall m, m = models.Schedule \/ m = models.ScheduleCreate ->
       exists r, model_validate now m (sample.schedule (Some [7; -1])) = inr r
                 /\ r !! "days_of_week" = Some (VList [VInt 7; VInt (-1)]))
  /\ (forall input r,
        input !! "days_of_week" = None ->
        model_validate now models.Schedule input = inr r ->
        r !! "days_of_week" = Some (VList []))
  /\ (exists r, model_validate now models.Schedule (sample.schedule None) = inr r).
Proof.
  split; [| split; [| split]].
  - intros m input days Hm Hin e He. destruct Hm as [-> | ->].
    + rewrite (validation_errors_at _ _ "days_of_week" (TList TInt)
                 (Field [Kw.default (VList []); Kw.sa_column JSON;
                         Kw.description "Operating days (0=Monday)"])) in He;
        [| by_evaluation | reflexivity].
      rewrite Hin, lookup_errors_int_list in He. inversion He.
    + rewrite (validation_errors_at _ _ "days_of_week" (TList TInt)
                 (Field [Kw.description "Operating days (0=Monday)"])) in He;
        [| by_evaluation | reflexivity].
      rewrite Hin, lookup_errors_int_list in He. inversion He.
  - intros m [-> | ->]; eexists; (split; [apply model_validate_inr; split;
      [vm_compute; reflexivity | reflexivity] | vm_compute; reflexivity]).
  - intros input r Hin Hr. apply model_validate_inr in Hr as [_ ->].
    rewrite (construct_lookup now models.Schedule input "days_of_week" (TList TInt)
               (Field [Kw.default (VList []); Kw.sa_column JSON;
                       Kw.description "Operating days (0=Monday)"]));
      [| by_evaluation | by_evaluation].
    simpl. rewrite Hin. reflexivity.
  - eexists. apply model_validate_inr. split; [vm_compute; reflexivity | reflexivity].
Qed.

Lemma days_of_week_range_unchecked_witness :
  Forall (fun err => err.1 <> "days_of_week")
    (validation_errors models.ScheduleCreate
       {[ "days_of_week" := VList [VInt 7; VInt (-1)] ]}).
Proof.
  destruct (days_of_week_range_unchecked sample.clock) as (Hany & _).
  apply Forall_forall. intros [name e] Hin Hname. simpl in Hname. subst name.
  refine (Hany models.ScheduleCreate _ [7; -1] _ _ e Hin);
    [right; reflexivity | vm_compute; reflexivity].
Defined.

(** C7. [BookingCreate] does not compare the length of [passengers] with
    [passenger_count]: a count of 2 with a single passenger record is
    accepted, and for any count from 1 on and any list of passenger
    records no error names either field. *)
Theorem booking_create_passenger_list_length_unchecked (now : Clock) :
  (exists input n ps r,
      input !! "passenger_count" = Some (VInt n) /\ 1 <= n
      /\ input !! "passengers" = Some (VList ps)
      /\ Z.of_nat (length ps) <> n
      /\ model_validate now models.BookingCreate input = inr r)
  /\ (forall input n ps,
        input !! "passenger_count" = Some (VInt n) -> 1 <= n ->
        input !! "passengers" = Some (VList (VDict <$> ps)) ->
        forall name e, (name, e) ∈ validation_errors models.BookingCreate input ->
                       name <> "passenger_count" /\ name <> "passengers").
Proof.
  split.
  - exists (sample.booking 2 [[("first_name", VStr "Ana")]]), 2,
      [VDict [("first_name", VStr "Ana")]]. eexists.
    split; [vm_compute; reflexivity |]. split; [lia |].
    split; [vm_compute; reflexivity |]. split; [simpl; lia |].
    apply model_validate_inr. split; [vm_compute; reflexivity | reflexivity].
  - intros input n ps Hn Hge Hps name e He. split; intros ->.
    + rewrite (validation_errors_at _ _ "passenger_count" TInt (Field [Kw.ge 1])) in He;
        [| by_evaluation | reflexivity].
      rewrite Hn in He. simpl in He. unfold check_int in He. simpl in He.
      apply Z.ltb_ge in Hge. rewrite Hge in He. inversion He.
    + rewrite (validation_errors_at _ _ "passengers" (TList (TDictStr TAny))
                 (Field [Kw.description "Passenger details"])) in He;
        [| by_evaluation | reflexivity].
      rewrite Hps, lookup_errors_dict_list in He. inversion He.
Qed.

Lemma booking_create_passenger_list_length_unchecked_witness :
  Forall (fun err => err.1 <> "passenger_count" /\ err.1 <> "passengers")
    (validation_errors models.BookingCreate
       (<["passenger_count" := VInt 3]> {[ "passengers" := VList [VDict []] ]})).
Proof.
  destruct (booking_create_passenger_list_length_unchecked sample.clock) as (_ & Hany).
  apply Forall_forall. intros [name e] Hin.
  refine (Hany _ 3 [[]] _ _ _ name e Hin);
    [vm_compute; reflexivity | lia | vm_compute; reflexivity].
Defined.

(** C6. Nothing in the declaration of [Route] compares the two endpoints:
    a route from location 1 to location 1 is accepted and keeps both, and
    whenever both endpoints are the same integer no error names either. *)
Theorem route_equal_endpoints_accepted (now : Clock) :
  (exists input r,
      input !! "departure_location_id" = input !! "arrival_location_id"
      /\ model_validate now models.Route input = inr r
      /\ r !! "departure_location_id" = Some (VInt 1)
      /\ r !! "arrival_location_id" = Some (VInt 1))
  /\ (forall input k,
        input !! "departure_location_id" = Some (VInt k) ->
        input !! "arrival_location_id" = Some (VInt k) ->
        forall name e, (name, e) ∈ validation_errors models.Route input ->
                       name <> "departure_location_id"
                       /\ name <> "arrival_location_id").
Proof.
  split.
  - exists (sample.route 1 1). eexists.
    split; [vm_compute; reflexivity |].
    split; [apply model_validate_inr; split; [vm_compute; reflexivity | reflexivity] |].
    split; vm_compute; reflexivity.
  - intros input k Hd Ha name e He. split; intros ->.
    + rewrite (validation_errors_at _ _ "departure_location_id" TInt
                 (Field [Kw.foreign_key "locations.id"])) in He;
        [| by_evaluation | reflexivity].
      rewrite Hd in He. inversion He.
    + rewrite (validation_errors_at _ _ "arrival_location_id" TInt
                 (Field [Kw.foreign_key "locations.id"])) in He;
        [| by_evaluation | reflexivity].
      rewrite Ha in He. inversion He.
Qed.

Lemma route_equal_endpoints_accepted_witness :
  Forall (fun err => err.1 <> "departure_location_id"
                     /\ err.1 <> "arrival_location_id")
    (validation_errors models.Route
       (<["departure_location_id" := VInt 5]> {[ "arrival_location_id" := VInt 5 ]})).
Proof.
  destruct (route_equal_endpoints_accepted sample.clock) as (_ & Hany).
  apply Forall_forall. intros [name e] Hin.
  refine (Hany _ 5 _ _ name e Hin); vm_compute; reflexivity.
Defined.

End request_shapes.

(** ** The store keeps unique columns unique *)

Section store.
Import pydantic db.

Lemma assign_keys_cons (p : string) (ps : list string) (rs : list obj) (r : obj) :
  assign_keys (p :: ps) rs r =
  match assign_keys ps rs r !! p with
  | Some VNone => <[p := VInt (next_id p rs)]> (assign_keys ps rs r)
  | _ => assign_keys ps rs r
  end.
Proof. reflexivity. Qed.

Lemma assign_key_lookup (p c : string) (rs : list obj) (r : obj) :
  match r !! p with
  | Some VNone => <[p := VInt (next_id p rs)]> r
  | _ => r
  end !! c =
  if decide (c = p)
  then match r !! p with
       | Some VNone => Some (VInt (next_id p rs))
       | o => o
       end
  else r !! c.
Proof.
  destruct (r !! p) as [[]|] eqn:E; case_decide; subst;
    rewrite ?lookup_insert_eq, ?lookup_insert_ne by congruence; auto.
Qed.

Lemma assign_keys_lookup (pks : list string) (rs : list obj) (r : obj) (c : string) :
  assign_keys pks rs r !! c =
  match r !! c with
  | Some VNone =>
      if bool_decide (c ∈ pks) then Some (VInt (next_id c rs)) else Some VNone
  | o => o
  end.
Proof.
  induction pks as [|p ps IH].
  - simpl. destruct (r !! c) as [[]|]; reflexivity.
  - rewrite assign_keys_cons, assign_key_lookup.
    destruct (decide (c = p)) as [<- | Hc].
    + rewrite IH.
      rewrite (bool_decide_eq_true_2 (c ∈ c :: ps)) by apply list_elem_of_here.
      destruct (r !! c) as [[]|]; try reflexivity.
      case_bool_decide; reflexivity.
    + rewrite IH. destruct (r !! c) as [[]|]; try reflexivity.
      apply (f_equal (fun b : bool => if b then _ else _)).
      apply bool_decide_ext. rewrite elem_of_cons. tauto.
Qed.

Lemma assign_keys_keeps (pks : list string) (rs : list obj) (r : obj) (c : string) (v : Value) :
  r !! c = Some v -> v <> VNone -> assign_keys pks rs r !! c = Some v.
Proof.
  intros Hc Hv. rewrite assign_keys_lookup, Hc. destruct v; congruence.
Qed.

Lemma assign_keys_is_Some (pks : list string) (rs : list obj) (r : obj) (k : string) :
  is_Some (assign_keys pks rs r !! k) -> is_Some (r !! k).
Proof.
  rewrite assign_keys_lookup. destruct (r !! k) as [v|]; [eauto | intros H; exact H].
Qed.

Lemma elem_of_unique_columns (m : Model) (c : string) :
  c ∈ unique_columns m <->
  exists a fi, (c, a, fi) ∈ fields m /\ (fi_unique fi || fi_primary_key fi = true).
Proof.
  unfold unique_columns. rewrite list_elem_of_fmap. split.
  - intros ([[n a] fi] & -> & Hin). apply list_elem_of_In, filter_In in Hin as [Hin Hf].
    exists a, fi. split; [apply list_elem_of_In; exact Hin | exact Hf].
  - intros (a & fi & Hin & Hf). exists (c, a, fi). split; [reflexivity |].
    apply list_elem_of_In, filter_In. split; [apply list_elem_of_In; exact Hin | exact Hf].
Qed.

Lemma elem_of_primary_keys (m : Model) (c : string) (a : Ann) (fi : FieldInfo) :
  (c, a, fi) ∈ fields m -> fi_primary_key fi = true -> c ∈ primary_keys m.
Proof.
  intros Hin Hpk. unfold primary_keys. apply list_elem_of_fmap.
  exists (c, a, fi). split; [reflexivity |].
  apply list_elem_of_In, filter_In. split; [apply list_elem_of_In; exact Hin | exact Hpk].
Qed.

(** In this schema a [unique=True] column is a required string. *)
Lemma unique_column_required (m : Model) (c : string) (a : Ann) (fi : FieldInfo) :
  m ∈ models.all -> (c, a, fi) ∈ fields m -> fi_unique fi = true ->
  a = TStr /\ fi_default fi = Undefined.
Proof.
  intros Hm Hf Hu.
  assert (Hall : Forall (fun m =>
            Forall (fun f => fi_unique f.2 = true ->
                             f.1.2 = TStr /\ fi_default f.2 = Undefined) (fields m))
            models.all) by by_evaluation.
  rewrite Forall_forall in Hall. specialize (Hall m Hm).
  rewrite Forall_forall in Hall. exact (Hall (c, a, fi) Hf Hu).
Qed.

(** No two classes share a table. *)
Lemma tablename_inj (m1 m2 : Model) (t : string) :
  m1 ∈ models.all -> m2 ∈ models.all ->
  tablename m1 = Some t -> tablename m2 = Some t -> m1 = m2.
Proof.
  intros H1 H2 E1 E2.
  assert (Hall : Forall (fun m1 => Forall (fun m2 =>
            tablename m1 = tablename m2 -> tablename m1 <> None -> m1 = m2)
            models.all) models.all) by by_evaluation.
  rewrite Forall_forall in Hall. specialize (Hall m1 H1).
  rewrite Forall_forall in Hall. apply (Hall m2 H2); congruence.
Qed.

Lemma validated_str (a : Ann) (fi : FieldInfo) (o : option Value) :
  a = TStr -> fi_default fi = Undefined -> lookup_errors a fi o = [] ->
  exists s, o = Some (VStr s).
Proof.
  intros -> Hd. unfold lookup_errors. rewrite Hd.
  destruct o as [v|]; [| discriminate].
  destruct v; simpl; try discriminate. eauto.
Qed.

Lemma validation_errors_nil (m : Model) (input : obj) (c : string) (a : Ann) (fi : FieldInfo) :
  validation_errors m input = [] -> (c, a, fi) ∈ fields m ->
  lookup_errors a fi (input !! c) = [].
Proof.
  intros Hnil Hin. destruct (lookup_errors a fi (input !! c)) as [|e l] eqn:E; [reflexivity |].
  exfalso. assert (H : (c, e) ∈ validation_errors m input).
  { apply elem_of_validation_errors. exists a, fi. split; [exact Hin |].
    rewrite E. apply list_elem_of_here. }
  rewrite Hnil in H. inversion H.
Qed.

(** The row an insert stores satisfies [row_ok]. *)
Lemma inserted_row_ok (now : Clock) (m : Model) (input : obj) (rs : list obj) :
  m ∈ models.all -> validation_errors m input = [] ->
  row_ok m (assign_keys (primary_keys m) rs (construct now m input)).
Proof.
  intros Hm Hnil. pose proof (field_names_NoDup m Hm) as Hnd. split.
  - intros k Hk. apply assign_keys_is_Some in Hk.
    destruct (decide (k ∈ field_names m)) as [Hin | Hnot]; [exact Hin |].
    rewrite (construct_lookup_None now m input k Hnot) in Hk.
    destruct Hk as [? Hk]. discriminate.
  - intros c Hc. apply elem_of_unique_columns in Hc as (a & fi & Hin & Hf).
    rewrite assign_keys_lookup, (construct_lookup now m input c a fi Hnd Hin).
    destruct (fi_primary_key fi) eqn:Hpk.
    + rewrite (bool_decide_eq_true_2 _ (elem_of_primary_keys m c a fi Hin Hpk)).
      destruct (field_value now input (c, a, fi)); eexists; (split; [reflexivity | discriminate]).
    + rewrite orb_false_r in Hf.
      destruct (unique_column_required m c a fi Hm Hin Hf) as [Ha Hd].
      destruct (validated_str a fi (input !! c) Ha Hd
                  (validation_errors_nil m input c a fi Hnil Hin)) as [s Hs].
      subst a. simpl. rewrite Hs. eexists. split; [reflexivity | discriminate].
Qed.

Lemma insert_inr (now : Clock) (m : Model) (input : obj) (st st' : Store) :
  insert now m input st = inr st' ->
  exists t,
    tablename m = Some t
    /\ validation_errors m input = []
    /\ (forall c, c ∈ unique_columns m ->
          duplicate c (assign_keys (primary_keys m) (rows m st) (construct now m input))
            (rows m st) = false)
    /\ st' = <[t := rows m st
               ++ [assign_keys (primary_keys m) (rows m st) (construct now m input)]]> st.
Proof.
  unfold insert, rows. destruct (table m); [| discriminate].
  destruct (tablename m) as [t|]; [| discriminate].
  destruct (model_validate now m input) as [errs | r] eqn:Hv; [discriminate |].
  apply model_validate_inr in Hv as [Hnil ->].
  destruct (List.find _ _) eqn:Hfind; [discriminate |].
  intros [= <-]. exists t. split; [reflexivity |]. split; [exact Hnil |].
  split; [| reflexivity].
  intros c Hc. apply (find_none _ _ Hfind). apply list_elem_of_In. exact Hc.
Qed.

Lemma rows_insert (m : Model) (t : string) (l : list obj) (st : Store) :
  rows m (<[t := l]> st) = if decide (tablename m = Some t) then l else rows m st.
Proof.
  unfold rows. destruct (tablename m) as [t'|]; [| case_decide; [discriminate | reflexivity]].
  case_decide as Ht.
  - injection Ht as ->. rewrite lookup_insert_eq. reflexivity.
  - rewrite lookup_insert_ne by congruence. reflexivity.
Qed.

Lemma duplicate_false (c : string) (r : obj) (rs : list obj) (r' : obj) (v : Value) :
  duplicate c r rs = false -> r !! c = Some v -> v <> VNone -> r' ∈ rs ->
  r' !! c <> r !! c.
Proof.
  intros Hdup Hr Hv Hin Heq.
  assert (Htrue : duplicate c r rs = true); [| congruence].
  apply existsb_exists. exists r'. split; [apply list_elem_of_In; exact Hin |].
  rewrite Heq, Hr. rewrite bool_decide_eq_true_2 by exact Hv.
  rewrite bool_decide_eq_true_2 by reflexivity. reflexivity.
Qed.

Lemma no_duplicates_snoc (c : string) (rs : list obj) (r : obj) (v : Value) :
  no_duplicates c rs -> duplicate c r rs = false ->
  r !! c = Some v -> v <> VNone ->
  no_duplicates c (rs ++ [r]).
Proof.
  intros Hnd Hdup Hr Hv i j ri rj Hi Hj Heq.
  apply lookup_app_Some in Hi as [Hi | [Hli Hi]];
    apply lookup_app_Some in Hj as [Hj | [Hlj Hj]].
  - exact (Hnd i j ri rj Hi Hj Heq).
  - apply list_lookup_singleton_Some in Hj as [_ <-].
    exfalso. apply (duplicate_false c r rs ri v Hdup Hr Hv); [| exact Heq].
    apply list_elem_of_lookup. eauto.
  - apply list_lookup_singleton_Some in Hi as [_ <-].
    exfalso. apply (duplicate_false c r rs rj v Hdup Hr Hv); [| symmetry; exact Heq].
    apply list_elem_of_lookup. eauto.
  - apply list_lookup_singleton_Some in Hi as [Hi _].
    apply list_lookup_singleton_Some in Hj as [Hj _]. lia.
Qed.

(** Every state of the store is consistent. *)
Lemma reachable_consistent (st : Store) : reachable st -> consistent st.
Proof.
  induction 1 as [| now m0 input st st' Hreach IH Hm0 Hins].
  - intros m Hm. unfold rows. destruct (tablename m); rewrite ?lookup_empty; simpl.
    + split; [constructor | intros c _ i j ri rj Hi; inversion Hi].
    + split; [constructor | intros c _ i j ri rj Hi; inversion Hi].
  - apply insert_inr in Hins as (t & Ht & Hnil & Hdup & ->).
    intros m Hm. rewrite rows_insert. case_decide as Hmt.
    + assert (m = m0) as -> by exact (tablename_inj m m0 t Hm Hm0 Hmt Ht).
      destruct (IH m0 Hm0) as [Hrows Huniq].
      pose proof (inserted_row_ok now m0 input (rows m0 st) Hm0 Hnil) as Hnew.
      split.
      * apply Forall_app. split; [exact Hrows | constructor; [exact Hnew | constructor]].
      * intros c Hc. destruct Hnew as [_ Hnn]. destruct (Hnn c Hc) as (v & Hv & Hvn).
        exact (no_duplicates_snoc c _ _ v (Huniq c Hc) (Hdup c Hc) Hv Hvn).
    + exact (IH m Hm).
Qed.

(** C1. Each of the six fields is declared [unique=True]; in every state
    of the store an insert whose value for the field equals that of a
    stored row of the entity is rejected, and no two rows of the entity
    have the same value in the field. *)
Theorem unique_fields_reject_duplicates (m : Model) (c : string) (st : Store) :
  (m, c) ∈ [ (models.User, "email");
             (models.Booking, "booking_reference");
             (models.Payment, "payment_reference");
             (models.Location, "code");
             (models.Language, "code");
             (models.SystemSettings, "key") ] ->
  reachable st ->
  declared_unique m c = true
  /\ (forall now input r,
        r ∈ rows m st -> input !! c = r !! c ->
        exists e, insert now m input st = inl e)
  /\ no_duplicates c (rows m st).
Proof.
  intros Hmc Hreach.
  assert (Hall : Forall (fun mc => mc.1 ∈ models.all /\ mc.2 ∈ unique_columns mc.1
                                   /\ declared_unique mc.1 mc.2 = true)
            [ (models.User, "email");
              (models.Booking, "booking_reference");
              (models.Payment, "payment_reference");
              (models.Location, "code");
              (models.Language, "code");
              (models.SystemSettings, "key") ]) by by_evaluation.
  rewrite Forall_forall in Hall. destruct (Hall (m, c) Hmc) as (Hm & Hc & Hdecl).
  simpl in Hm, Hc, Hdecl. clear Hall Hmc.
  destruct (reachable_consistent st Hreach m Hm) as [Hrows Huniq].
  split; [exact Hdecl |]. split; [| exact (Huniq c Hc)].
  intros now input r Hr Heq.
  rewrite Forall_forall in Hrows. destruct (Hrows r Hr) as [_ Hnn].
  destruct (Hnn c Hc) as (v & Hv & Hvn).
  destruct (insert now m input st) as [e | st'] eqn:Hins; [exists e; reflexivity |].
  exfalso. apply insert_inr in Hins as (t & _ & Hnil & Hdup & _).
  pose proof Hc as Hc'. apply elem_of_unique_columns in Hc' as (a & fi & Hin & _).
  assert (Ha : a = TStr).
  { pose proof (proj1 (lookup_field_Some m c a fi (field_names_NoDup m Hm)) Hin) as Hlk.
    unfold declared_unique in Hdecl. rewrite Hlk in Hdecl.
    exact (proj1 (unique_column_required m c a fi Hm Hin Hdecl)). }
  subst a.
  apply (duplicate_false c _ _ r v (Hdup c Hc)); [| exact Hvn | exact Hr |].
  - apply assign_keys_keeps; [| exact Hvn].
    rewrite (construct_lookup now m input c TStr fi (field_names_NoDup m Hm) Hin).
    simpl. rewrite Heq, Hv. reflexivity.
  - rewrite Hv. symmetry. apply assign_keys_keeps; [| exact Hvn].
    rewrite (construct_lookup now m input c TStr fi (field_names_NoDup m Hm) Hin).
    simpl. rewrite Heq, Hv. reflexivity.
Qed.

Lemma one_user_reachable : reachable sample.one_user.
Proof.
  apply (reachable_insert sample.clock models.User (sample.user "ana@example.org") ∅).
  - apply reachable_empty.
  - by_evaluation.
  - vm_compute. reflexivity.
Qed.

Lemma unique_fields_reject_duplicates_witness :
  exists e, insert sample.clock models.User (sample.user "ana@example.org")
              sample.one_user = inl e.
Proof.
  destruct (unique_fields_reject_duplicates models.User "email" sample.one_user)
    as (_ & Hrej & _).
  - by_evaluation.
  - exact one_user_reachable.
  - apply (Hrej sample.clock (sample.user "ana@example.org")
             (assign_keys (primary_keys models.User) []
                (construct sample.clock models.User (sample.user "ana@example.org")))).
    + vm_compute. apply list_elem_of_here.
    + vm_compute. reflexivity.
Defined.

(** C8. The classes that declare a [password] field are [UserCreate] and
    [UserLogin], neither of them a table; [User] declares [password_hash]
    and no [password]; a validated [User] instance has no [password]
    attribute whatever the input held, and neither has any stored row. *)
Theorem plaintext_password_only_in_request_shapes :
  classes_with_field "password" models.all = [models.UserCreate; models.UserLogin]
  /\ table models.UserCreate = false /\ table models.UserLogin = false
  /\ lookup_field models.User "password_hash" = Some (TStr, Field [Kw.max_length 255])
  /\ lookup_field models.User "password" = None
  /\ (forall now input r,
        model_validate now models.User input = inr r -> r !! "password" = None)
  /\ (forall st m r,
        reachable st -> m ∈ models.all -> r ∈ rows m st -> r !! "password" = None).
Proof.
  split; [vm_compute; reflexivity |].
  split; [reflexivity |]. split; [reflexivity |].
  split; [reflexivity |]. split; [reflexivity |]. split.
  - intros now input r Hr. apply model_validate_inr in Hr as [_ ->].
    apply construct_lookup_None. by_evaluation.
  - intros st m r Hreach Hm Hr.
    destruct (reachable_consistent st Hreach m Hm) as [Hrows _].
    rewrite Forall_forall in Hrows. destruct (Hrows r Hr) as [Hkeys _].
    destruct (r !! "password") as [v|] eqn:Hp; [| reflexivity].
    exfalso. assert (Hin : "password" ∈ field_names m) by (apply Hkeys; eauto).
    assert (Hall : Forall (fun m => "password" ∈ field_names m -> tablename m = None)
              models.all) by by_evaluation.
    rewrite Forall_forall in Hall. specialize (Hall m Hm Hin).
    unfold rows in Hr. rewrite Hall in Hr. inversion Hr.
Qed.

Lemma plaintext_password_only_in_request_shapes_witness :
  Forall (fun r : obj => r !! "password" = None)
    (rows models.User sample.one_user).
Proof.
  destruct plaintext_password_only_in_request_shapes as (_ & _ & _ & _ & _ & _ & Hrows).
  apply Forall_forall. intros r Hr. apply (Hrows sample.one_user models.User r).
  - exact one_user_reachable.
  - by_evaluation.
  - exact Hr.
Defined.

End store.

(** ** Decimal precision *)

(** C5. The decimal fields of the file are these nine, with these
    [max_digits] and [decimal_places]: 10 and 2 for every amount, 8 and 2
    for the distance, 5 and 3 for the price multiplier. *)
Theorem decimal_fields_precision :
  decimal_fields models.all =
  [ ("Route", "distance_km", Some 8, Some 2);
    ("Schedule", "base_price", Some 10, Some 2);
    ("DailySchedule", "price_override", Some 10, Some 2);
    ("SeasonalPrice", "price_multiplier", Some 5, Some 3);
    ("Booking", "total_amount", Some 10, Some 2);
    ("Payment", "amount", Some 10, Some 2);
    ("Payment", "refund_amount", Some 10, Some 2);
    ("ScheduleCreate", "base_price", Some 10, Some 2);
    ("DailyScheduleUpdate", "price_override", Some 10, Some 2) ]%nat.
Proof. vm_compute. reflexivity. Qed.

(** ** Patching a daily schedule, and the activity query *)

Section operations.
Import pydantic service.

Lemma patch_lookup (update record : obj) (names : list string) (k : string) :
  foldr (fun name r =>
           match update !! name with
           | None | Some VNone => r
           | Some v => <[name := v]> r
           end) record names !! k =
  if bool_decide (k ∈ names)
  then match update !! k with
       | None | Some VNone => record !! k
       | Some v => Some v
       end
  else record !! k.
Proof.
  induction names as [|n l IH]; [reflexivity |].
  simpl. destruct (decide (k = n)) as [<- | Hne].
  - rewrite (bool_decide_eq_true_2 (k ∈ k :: l)) by apply list_elem_of_here.
    destruct (update !! k) as [v|] eqn:Hu.
    + destruct v; rewrite ?lookup_insert_eq; try reflexivity.
      rewrite IH. case_bool_decide; reflexivity.
    + rewrite IH. case_bool_decide; reflexivity.
  - assert (Hmem : bool_decide (k ∈ n :: l) = bool_decide (k ∈ l)).
    { apply bool_decide_ext. rewrite elem_of_cons. tauto. }
    rewrite Hmem, <- IH.
    destruct (update !! n) as [v|]; [| reflexivity].
    destruct v; rewrite ?lookup_insert_ne by congruence; reflexivity.
Qed.

Lemma apply_update_lookup (update record : obj) (k : string) :
  apply_update update record !! k =
  if bool_decide (k ∈ field_names models.DailyScheduleUpdate)
  then match update !! k with
       | None | Some VNone => record !! k
       | Some v => Some v
       end
  else record !! k.
Proof. apply patch_lookup. Qed.

(** C3. Every field of [DailyScheduleUpdate] is optional with default
    [None], so the empty input validates to an update with all five fields
    absent; applying an update whose five fields are absent returns the
    record as it was; in general a field that is absent from the update, and
    every field the update does not have, keeps its value. *)
Theorem daily_schedule_update_absent_fields_unchanged
  (now : Clock) (record : obj) :
  field_names models.DailyScheduleUpdate
  = ["available_seats"; "price_override"; "is_available"; "booking_deadline";
     "notes"]
  /\ Forall (fun f => (exists t, f.1.2 = TOptional t)
                      /\ fi_default f.2 = DefaultValue VNone)
       (fields models.DailyScheduleUpdate)
  /\ (exists update,
        model_validate now models.DailyScheduleUpdate ∅ = inr update
        /\ (forall name, name ∈ field_names models.DailyScheduleUpdate ->
                         update !! name = Some VNone)
        /\ apply_update update record = record)
  /\ (forall update,
        (forall name, name ∈ field_names models.DailyScheduleUpdate ->
                      update !! name = Some VNone \/ update !! name = None) ->
        apply_update update record = record)
  /\ (forall update name,
        update !! name = Some VNone \/ update !! name = None ->
        apply_update update record !! name = record !! name)
  /\ (forall update name,
        name ∉ field_names models.DailyScheduleUpdate ->
        apply_update update record !! name = record !! name).
Proof.
  assert (Hfield : forall update name,
            update !! name = Some VNone \/ update !! name = None ->
            apply_update update record !! name = record !! name).
  { intros update name Habs. rewrite apply_update_lookup.
    case_bool_decide; [| reflexivity].
    destruct Habs as [-> | ->]; reflexivity. }
  assert (Hother : forall update name,
            name ∉ field_names models.DailyScheduleUpdate ->
            apply_update update record !! name = record !! name).
  { intros update name Hnot. rewrite apply_update_lookup.
    rewrite bool_decide_eq_false_2 by exact Hnot. reflexivity. }
  assert (Hall : forall update,
            (forall name, name ∈ field_names models.DailyScheduleUpdate ->
                          update !! name = Some VNone \/ update !! name = None) ->
            apply_update update record = record).
  { intros update Habs. apply map_eq. intros k.
    destruct (decide (k ∈ field_names models.DailyScheduleUpdate)) as [Hin | Hnot].
    - apply Hfield. apply Habs. exact Hin.
    - apply Hother. exact Hnot. }
  assert (Hempty : forall name, name ∈ field_names models.DailyScheduleUpdate ->
            construct now models.DailyScheduleUpdate ∅ !! name = Some VNone).
  { intros name Hin. simpl in Hin.
    repeat (apply elem_of_cons in Hin as [-> | Hin]; [vm_compute; reflexivity |]).
    inversion Hin. }
  split; [reflexivity |].
  split; [repeat constructor; eexists; reflexivity |].
  split; [| split; [exact Hall | split; [exact Hfield | exact Hother]]].
  exists (construct now models.DailyScheduleUpdate ∅).
  split; [reflexivity |]. split; [exact Hempty |].
  apply Hall. intros name Hin. left. apply Hempty. exact Hin.
Qed.

Lemma daily_schedule_update_absent_fields_unchanged_witness :
  apply_update {[ "notes" := VStr "sold out" ]}
    {[ "available_seats" := VInt 12 ]} !! "available_seats" = Some (VInt 12).
Proof.
  destruct (daily_schedule_update_absent_fields_unchanged sample.clock
              {[ "available_seats" := VInt 12 ]}) as (_ & _ & _ & _ & Hfield & _).
  rewrite (Hfield {[ "notes" := VStr "sold out" ]} "available_seats").
  - vm_compute. reflexivity.
  - right. vm_compute. reflexivity.
Defined.

Lemma date_le_spec (a b : date) :
  date_le a b = true <->
  year a < year b
  \/ (year a = year b
      /\ (month a < month b \/ (month a = month b /\ day a <= day b))).
Proof.
  unfold date_le.
  rewrite !orb_true_iff, !andb_true_iff, !orb_true_iff, !andb_true_iff.
  rewrite !Z.ltb_lt, !Z.eqb_eq, Z.leb_le. reflexivity.
Qed.

Lemma valid_date_spec (d : date) :
  valid_date d = true <->
  1 <= year d <= 9999 /\ 1 <= month d <= 12
  /\ 1 <= day d <= days_in_month (year d) (month d).
Proof.
  unfold valid_date. rewrite !andb_true_iff, !Z.leb_le. tauto.
Qed.

Lemma month_cases (m : Z) :
  1 <= m <= 12 ->
  m = 1 \/ m = 2 \/ m = 3 \/ m = 4 \/ m = 5 \/ m = 6 \/ m = 7 \/ m = 8
  \/ m = 9 \/ m = 10 \/ m = 11 \/ m = 12.
Proof. lia. Qed.

Lemma days_in_month_bounds (y m : Z) :
  1 <= m <= 12 -> 28 <= days_in_month y m <= 31.
Proof.
  intros Hm. unfold days_in_month.
  destruct (month_cases m Hm) as [-> | [-> | [-> | [-> | [-> | [-> | [-> | [-> | [-> | [-> | [-> | ->]]]]]]]]]]];
    destruct (is_leap y); simpl; lia.
Qed.

(** The days before a month and the days of the month are the days before
    the next month. *)
Lemma days_before_next_month (y m : Z) :
  1 <= m < 12 ->
  days_before_month y (m + 1) = days_before_month y m + days_in_month y m.
Proof.
  intros Hm. unfold days_before_month, days_in_month.
  assert (Hc : m = 1 \/ m = 2 \/ m = 3 \/ m = 4 \/ m = 5 \/ m = 6 \/ m = 7 \/ m = 8
               \/ m = 9 \/ m = 10 \/ m = 11) by lia.
  destruct Hc as [-> | [-> | [-> | [-> | [-> | [-> | [-> | [-> | [-> | [-> | ->]]]]]]]]]];
    destruct (is_leap y); simpl; lia.
Qed.

Lemma days_before_next_year (y : Z) :
  days_before_year (y + 1)
  = days_before_year y + days_before_month y 12 + 31.
Proof.
  unfold days_before_year, days_before_month, is_leap.
  change (nth (Z.to_nat 12) [0; 0; 31; 59; 90; 120; 151; 181; 212; 243; 273; 304; 334] 0)
    with 334.
  change (2 <? 12) with true. cbn [andb]. cbv zeta.
  replace (y + 1 - 1) with y by lia.
  destruct (y mod 4 =? 0) eqn:E4; destruct (y mod 100 =? 0) eqn:E100;
    destruct (y mod 400 =? 0) eqn:E400; cbn [andb orb negb];
    rewrite ?Z.eqb_eq, ?Z.eqb_neq in *;
    Z.div_mod_to_equations; lia.
Qed.

Lemma toordinal_tomorrow (d : date) :
  valid_date d = true -> toordinal (tomorrow d) = toordinal d + 1.
Proof.
  intros Hv. apply valid_date_spec in Hv as (Hy & Hm & Hd).
  unfold tomorrow, toordinal.
  destruct (day d <? days_in_month (year d) (month d)) eqn:E1; simpl.
  - lia.
  - apply Z.ltb_ge in E1. destruct (month d <? 12) eqn:E2; simpl.
    + apply Z.ltb_lt in E2. rewrite days_before_next_month by lia. lia.
    + apply Z.ltb_ge in E2. assert (Hm12 : month d = 12) by lia.
      rewrite days_before_next_year. rewrite Hm12 in *.
      assert (days_in_month (year d) 12 = 31).
      { unfold days_in_month. simpl. reflexivity. }
      assert (days_before_month (year d + 1) 1 = 0).
      { unfold days_before_month. simpl. reflexivity. }
      lia.
Qed.

Lemma valid_tomorrow (d : date) :
  valid_date d = true -> d <> Date 9999 12 31 -> valid_date (tomorrow d) = true.
Proof.
  intros Hv Hlast. apply valid_date_spec in Hv as (Hy & Hm & Hd).
  apply valid_date_spec. unfold tomorrow.
  destruct (day d <? days_in_month (year d) (month d)) eqn:E1; simpl.
  - apply Z.ltb_lt in E1. lia.
  - apply Z.ltb_ge in E1. destruct (month d <? 12) eqn:E2; simpl.
    + apply Z.ltb_lt in E2.
      pose proof (days_in_month_bounds (year d) (month d + 1) ltac:(lia)). lia.
    + apply Z.ltb_ge in E2. assert (Hm12 : month d = 12) by lia.
      rewrite Hm12 in *.
      assert (H31 : days_in_month (year d) 12 = 31) by reflexivity.
      assert (H31' : days_in_month (year d + 1) 1 = 31) by reflexivity.
      destruct (Z.eq_dec (year d) 9999) as [E | E].
      * exfalso. apply Hlast. destruct d as [y mo dy]. simpl in *. f_equal; lia.
      * lia.
Qed.

Lemma weekday_range (d : date) : 0 <= weekday d <= 6.
Proof. unfold weekday. pose proof (Z.mod_pos_bound (toordinal d + 6) 7). lia. Qed.

Lemma weekday_tomorrow (d : date) :
  valid_date d = true -> weekday (tomorrow d) = (weekday d + 1) mod 7.
Proof.
  intros Hv. unfold weekday. rewrite (toordinal_tomorrow d Hv).
  rewrite Z.add_mod_idemp_l by lia. f_equal. lia.
Qed.

(** No valid date lies strictly between a date and its tomorrow. *)
Lemma tomorrow_is_next (d z : date) :
  valid_date d = true -> valid_date z = true ->
  date_le d z = true -> z = d \/ date_le (tomorrow d) z = true.
Proof.
  intros Hd Hz Hle.
  apply valid_date_spec in Hd as (Hy & Hm & Hdd).
  apply valid_date_spec in Hz as (Hzy & Hzm & Hzd).
  apply date_le_spec in Hle.
  destruct (decide (z = d)) as [-> | Hne]; [left; reflexivity | right].
  assert (Hlt : year d < year z
                \/ (year d = year z
                    /\ (month d < month z \/ (month d = month z /\ day d < day z)))).
  { destruct Hle as [H | [Hye [H | [Hmo Hda]]]]; [lia | lia |].
    destruct (Z.eq_dec (day d) (day z)) as [E | E]; [| lia].
    exfalso. apply Hne. destruct d, z; simpl in *; congruence. }
  apply date_le_spec. unfold tomorrow.
  destruct (day d <? days_in_month (year d) (month d)) eqn:E1; simpl.
  - lia.
  - apply Z.ltb_ge in E1. destruct (month d <? 12) eqn:E2; simpl.
    + apply Z.ltb_lt in E2.
      destruct Hlt as [H | [Hye [H | [Hmo Hda]]]]; [lia | lia |].
      rewrite <- Hye, <- Hmo in Hzd. lia.
    + apply Z.ltb_ge in E2.
      destruct Hlt as [H | [Hye [H | [Hmo Hda]]]]; [lia | lia |].
      rewrite <- Hye, <- Hmo in Hzd. lia.
Qed.

Lemma tomorrow_is_later (d : date) :
  valid_date d = true ->
  date_le d (tomorrow d) = true /\ date_le (tomorrow d) d = false.
Proof.
  intros Hv. apply valid_date_spec in Hv as (Hy & Hm & Hd).
  split.
  - apply date_le_spec. unfold tomorrow.
    destruct (day d <? _) eqn:E1; simpl; [lia |].
    destruct (month d <? 12) eqn:E2; simpl; [apply Z.ltb_lt in E2; lia | lia].
  - apply not_true_iff_false. rewrite date_le_spec. unfold tomorrow.
    destruct (day d <? _) eqn:E1; simpl; [lia |].
    destruct (month d <? 12) eqn:E2; simpl; [apply Z.ltb_lt in E2; lia | lia].
Qed.


Lemma is_leap_spec (y : Z) :
  is_leap y = true <-> y mod 4 = 0 /\ (y mod 100 <> 0 \/ y mod 400 = 0).
Proof.
  unfold is_leap. rewrite andb_true_iff, orb_true_iff, negb_true_iff.
  rewrite !Z.eqb_eq, Z.eqb_neq. reflexivity.
Qed.

(** Validity of a date, written out: the Gregorian month lengths and leap
    years. *)
Lemma valid_date_gregorian (x : date) :
  valid_date x = true <->
  1 <= year x <= 9999 /\ 1 <= month x <= 12 /\ 1 <= day x <= 31
  /\ (month x = 4 \/ month x = 6 \/ month x = 9 \/ month x = 11 -> day x <= 30)
  /\ (month x = 2 ->
      day x <= 29
      /\ (day x = 29 ->
          year x mod 4 = 0 /\ (year x mod 100 <> 0 \/ year x mod 400 = 0))).
Proof.
  rewrite valid_date_spec. rewrite <- is_leap_spec. unfold days_in_month.
  split.
  - intros (Hy & Hm & Hd).
    destruct (month_cases (month x) Hm) as [E | [E | [E | [E | [E | [E | [E | [E | [E | [E | [E | E]]]]]]]]]]];
      rewrite E in *; destruct (is_leap (year x)); simpl in Hd;
      repeat split; try lia; intros; try lia; try reflexivity.
  - intros (Hy & Hm & Hd & H30 & H2). split; [exact Hy |]. split; [exact Hm |].
    destruct (month_cases (month x) Hm) as [E | [E | [E | [E | [E | [E | [E | [E | [E | [E | [E | E]]]]]]]]]]];
      rewrite E in *; destruct (is_leap (year x)) eqn:L; simpl; lia.
Qed.

(** C4. 2024-06-10 is a Monday (weekday 0), and a schedule with
    [days_of_week = [0, 2, 4]], [effective_from = 2024-01-01], no
    [effective_until] and status active is active on that day; so is the
    [Schedule] instance built from these values, whose [effective_until] and
    [status] come from the declared defaults.  In general the query holds
    exactly when the weekday of the date is among the days, the date is in
    the effective range (open above when [effective_until] is null) and the
    status is active.  The terms of the rule are the calendar's: the order
    of dates is that of (year, month, day); valid dates follow the
    Gregorian month lengths and leap years; [tomorrow] is the next valid
    date in that order; and the weekday lies in 0..6, is 0 on Monday
    2024-06-10 and advances by one, modulo 7, from each day to the next. *)
Theorem schedule_active_on_example_date
  (now : Clock) (schedule : obj) (days : list Value) (from : date)
  (until status : Value) (d : date) :
  schedule !! "days_of_week" = Some (VList days) ->
  schedule !! "effective_from" = Some (VDate from) ->
  schedule !! "effective_until" = Some until ->
  schedule !! "status" = Some status ->
  (is_active_on schedule d = true <->
     VInt (weekday d) ∈ days
     /\ date_le from d = true
     /\ (until = VNone \/ exists u, until = VDate u /\ date_le d u = true)
     /\ status = models.ScheduleStatus_ACTIVE)
  /\ weekday (Date 2024 6 10) = 0
  /\ (days = [VInt 0; VInt 2; VInt 4] -> from = Date 2024 1 1 ->
      until = VNone -> status = models.ScheduleStatus_ACTIVE ->
      is_active_on schedule (Date 2024 6 10) = true)
  /\ (exists s, model_validate now models.Schedule
                  (sample.schedule (Some [0; 2; 4])) = inr s
                /\ s !! "effective_until" = Some VNone
                /\ s !! "status" = Some models.ScheduleStatus_ACTIVE
                /\ is_active_on s (Date 2024 6 10) = true)
  /\ (forall a b,
        date_le a b = true <->
        year a < year b
        \/ (year a = year b
            /\ (month a < month b \/ (month a = month b /\ day a <= day b))))
  /\ (forall x,
        valid_date x = true <->
        1 <= year x <= 9999 /\ 1 <= month x <= 12 /\ 1 <= day x <= 31
        /\ (month x = 4 \/ month x = 6 \/ month x = 9 \/ month x = 11 ->
            day x <= 30)
        /\ (month x = 2 ->
            day x <= 29
            /\ (day x = 29 ->
                year x mod 4 = 0
                /\ (year x mod 100 <> 0 \/ year x mod 400 = 0))))
  /\ (forall x, valid_date x = true ->
        date_le x (tomorrow x) = true /\ date_le (tomorrow x) x = false
        /\ (x <> Date 9999 12 31 -> valid_date (tomorrow x) = true)
        /\ (forall z, valid_date z = true -> date_le x z = true ->
                      z = x \/ date_le (tomorrow x) z = true))
  /\ (forall x, 0 <= weekday x <= 6)
  /\ (forall x, valid_date x = true ->
        weekday (tomorrow x) = (weekday x + 1) mod 7).
Proof.
  intros Hdays Hfrom Huntil Hstatus.
  assert (Hiff : is_active_on schedule d = true <->
     VInt (weekday d) ∈ days
     /\ date_le from d = true
     /\ (until = VNone \/ exists u, until = VDate u /\ date_le d u = true)
     /\ status = models.ScheduleStatus_ACTIVE).
  { unfold is_active_on. rewrite Hdays, Hfrom, Huntil, Hstatus.
    rewrite !andb_true_iff, !bool_decide_eq_true.
    split.
    - intros [[[Hd Hf] Hu] Hs]. repeat split; try assumption.
      destruct until; try discriminate; [left; reflexivity | right; eauto].
    - intros (Hd & Hf & Hu & Hs). repeat split; try assumption.
      destruct Hu as [-> | (u & -> & Hu)]; [reflexivity | exact Hu]. }
  split; [exact Hiff |]. split; [reflexivity |]. split.
  - intros -> -> -> ->. unfold is_active_on.
    rewrite Hdays, Hfrom, Huntil, Hstatus. vm_compute. reflexivity.
  - split.
    { exists (construct now models.Schedule (sample.schedule (Some [0; 2; 4]))).
      split; [apply model_validate_inr; split; [vm_compute; reflexivity | reflexivity] |].
      split; [vm_compute; reflexivity |]. split; vm_compute; reflexivity. }
    split; [exact date_le_spec |]. split; [exact valid_date_gregorian |].
    split; [| split; [exact weekday_range | exact weekday_tomorrow]].
    intros x Hx. destruct (tomorrow_is_later x Hx) as [H1 H2].
    split; [exact H1 |]. split; [exact H2 |].
    split; [intros Hlast; exact (valid_tomorrow x Hx Hlast) |].
    intros z Hz Hle. exact (tomorrow_is_next x z Hx Hz Hle).
Qed.

Lemma schedule_active_on_example_date_witness :
  is_active_on
    (construct sample.clock models.Schedule (sample.schedule (Some [0; 2; 4])))
    (Date 2024 6 10) = true.
Proof.
  destruct (schedule_active_on_example_date sample.clock
              (construct sample.clock models.Schedule (sample.schedule (Some [0; 2; 4])))
              [VInt 0; VInt 2; VInt 4] (Date 2024 1 1) VNone
              models.ScheduleStatus_ACTIVE (Date 2024 6 10))
    as (_ & _ & Hex & _).
  - vm_compute. reflexivity.
  - vm_compute. reflexivity.
  - vm_compute. reflexivity.
  - vm_compute. reflexivity.
  - apply Hex; reflexivity.
Defined.

End operations.

(** ** Properties of the whole schema *)

Section schema.
Import pydantic.

Lemma validation_errors_nil_iff (m : Model) (input : obj) :
  validation_errors m input = [] <->
  forall name a fi, (name, a, fi) ∈ fields m ->
                    lookup_errors a fi (input !! name) = [].
Proof.
  split.
  - intros Hnil name a fi Hin. exact (validation_errors_nil m input name a fi Hnil Hin).
  - intros Hall. destruct (validation_errors m input) as [|[name e] l] eqn:E; [reflexivity |].
    exfalso. assert (Hin : (name, e) ∈ validation_errors m input).
    { rewrite E. apply list_elem_of_here. }
    apply elem_of_validation_errors in Hin as (a & fi & Hf & He).
    rewrite (Hall name a fi Hf) in He. inversion He.
Qed.

(** Every declared default passes the check of its own field, and
    [default_factory=datetime.utcnow] stands on [datetime] fields only. *)
Lemma defaults_conform (m : Model) (name : string) (a : Ann) (fi : FieldInfo) :
  m ∈ models.all -> (name, a, fi) ∈ fields m ->
  match fi_default fi with
  | DefaultValue d => validate a fi d = []
  | DefaultFactoryUtcnow => a = TDatetime
  | Undefined => True
  end.
Proof.
  intros Hm Hf.
  assert (Hall : Forall (fun m => Forall (fun f =>
            match fi_default f.2 with
            | DefaultValue d => bool_decide (validate f.1.2 f.2 d = [])
            | DefaultFactoryUtcnow => bool_decide (f.1.2 = TDatetime)
            | Undefined => true
            end = true) (fields m)) models.all) by by_evaluation.
  rewrite Forall_forall in Hall. specialize (Hall m Hm).
  rewrite Forall_forall in Hall. specialize (Hall (name, a, fi) Hf). simpl in Hall.
  destruct (fi_default fi); [exact I | |]; apply bool_decide_eq_true in Hall; exact Hall.
Qed.

Lemma convert_None (a : Ann) : convert a VNone = VNone.
Proof. induction a; try reflexivity. exact IHa. Qed.

Lemma flat_map_nil {A B : Type} (f : A -> list B) (l : list A) :
  flat_map f l = [] -> Forall (fun x => f x = []) l.
Proof.
  induction l as [|x l IH]; intros H; [constructor |].
  simpl in H. apply app_eq_nil in H as [Hx Hl].
  constructor; [exact Hx | exact (IH Hl)].
Qed.

(** A value that raises no error is of the annotated type, and conversion
    leaves it as it is. *)
Lemma validate_nil_convert (a : Ann) (fi : FieldInfo) (v : Value) :
  validate a fi v = [] -> convert a v = v.
Proof.
  revert fi v. induction a as [| | | | | | | | e | t IH | t IH | t IH]; intros fi v;
    try (destruct v; simpl; (reflexivity || discriminate)).
  - simpl. destruct v; try apply IH. intros _. apply convert_None.
  - destruct v; simpl; try (reflexivity || discriminate).
    intros H. apply flat_map_nil in H. f_equal.
    induction l as [|x l IHl]; [reflexivity |].
    apply Forall_cons in H as [Hx Hl]. simpl.
    rewrite (IH Field0 x Hx), (IHl Hl). reflexivity.
  - destruct v; simpl; try (reflexivity || discriminate).
    intros H. apply flat_map_nil in H. f_equal.
    induction d as [|[k x] d IHd]; [reflexivity |].
    apply Forall_cons in H as [Hx Hd]. simpl in Hx. simpl.
    rewrite (IH Field0 x Hx), (IHd Hd). reflexivity.
Qed.

Lemma construct_field_ok (now : Clock) (m : Model) (input : obj)
  (name : string) (a : Ann) (fi : FieldInfo) :
  m ∈ models.all ->
  (fi_default fi = DefaultFactoryUtcnow -> valid_datetime (now name) = true) ->
  validation_errors m input = [] -> (name, a, fi) ∈ fields m ->
  validate a fi (field_value now input (name, a, fi)) = [].
Proof.
  intros Hm Hnow Hnil Hf.
  pose proof (validation_errors_nil m input name a fi Hnil Hf) as He.
  pose proof (defaults_conform m name a fi Hm Hf) as Hd.
  unfold lookup_errors in He. simpl.
  destruct (input !! name) as [v|]; [exact He |].
  destruct (fi_default fi) as [|d|]; [discriminate | exact Hd |].
  subst a. simpl. rewrite (Hnow eq_refl). reflexivity.
Qed.

(** X1. Validation is idempotent on every class: an instance it returns
    passes validation again and comes back unchanged, because every
    declared default satisfies the constraints of its own field. *)
Theorem validated_instance_revalidates
  (now now' : Clock) (m : Model) (input r : obj) :
  m ∈ models.all -> (forall name, valid_datetime (now name) = true) ->
  model_validate now m input = inr r ->
  model_validate now' m r = inr r.
Proof.
  intros Hm Hnow Hr. apply model_validate_inr in Hr as [Hnil ->].
  pose proof (field_names_NoDup m Hm) as Hnd.
  assert (Hok : forall name a fi, (name, a, fi) ∈ fields m ->
            validate a fi (field_value now input (name, a, fi)) = []).
  { intros name a fi Hf.
    exact (construct_field_ok now m input name a fi Hm (fun _ => Hnow name) Hnil Hf). }
  apply model_validate_inr. split.
  - apply validation_errors_nil_iff. intros name a fi Hf.
    rewrite (construct_lookup now m input name a fi Hnd Hf).
    cbn [lookup_errors].
    rewrite (validate_nil_convert a fi _ (Hok name a fi Hf)).
    exact (Hok name a fi Hf).
  - apply map_eq. intros k.
    destruct (decide (k ∈ field_names m)) as [Hin | Hnot].
    + apply list_elem_of_fmap in Hin as ([[n a] fi] & -> & Hf). simpl.
      rewrite (construct_lookup now' m _ n a fi Hnd Hf).
      cbn [field_value]. rewrite (construct_lookup now m input n a fi Hnd Hf).
      rewrite (validate_nil_convert a fi _ (Hok n a fi Hf)). reflexivity.
    + rewrite !construct_lookup_None by exact Hnot. reflexivity.
Qed.


Ltac not_in_literal :=
  let H := fresh in
  solve [intros H; repeat (apply elem_of_cons in H as [H | H]; [discriminate |]);
         inversion H].

Lemma check_int_not_missing (fi : FieldInfo) (z : Z) : missing ∉ check_int fi z.
Proof. unfold check_int. repeat case_match; not_in_literal. Qed.

Lemma check_str_not_missing (fi : FieldInfo) (s : string) : missing ∉ check_str fi s.
Proof. unfold check_str. repeat case_match; not_in_literal. Qed.

Lemma check_decimal_not_missing (fi : FieldInfo) (d : Decimal) :
  missing ∉ check_decimal fi d.
Proof. unfold check_decimal. repeat case_match; not_in_literal. Qed.

Lemma flat_map_not_elem {A B : Type} (f : A -> list B) (l : list A) (y : B) :
  (forall x, y ∉ f x) -> y ∉ flat_map f l.
Proof.
  intros Hf Hin. apply list_elem_of_In, in_flat_map in Hin as (x & _ & Hx).
  apply (Hf x). apply list_elem_of_In. exact Hx.
Qed.

(** A value that is supplied is never reported as missing. *)
Lemma validate_not_missing (a : Ann) (fi : FieldInfo) (v : Value) :
  missing ∉ validate a fi v.
Proof.
  revert fi v. induction a as [| | | | | | | | e | t IH | t IH | t IH]; intros fi v; simpl;
    try (destruct v; repeat case_match; first
           [ apply check_int_not_missing | apply check_str_not_missing
           | apply check_decimal_not_missing | not_in_literal ]).
  - destruct v; try apply IH. not_in_literal.
  - destruct v; try not_in_literal. apply flat_map_not_elem. intros x. apply IH.
  - destruct v; try not_in_literal. apply flat_map_not_elem. intros x. apply IH.
Qed.

(** X2. [missing] is reported for a field exactly when the field is declared
    without a default and the input has no value under its name. *)
Theorem missing_iff_required_absent (m : Model) (input : obj) (name : string) :
  (name, missing) ∈ validation_errors m input <->
  input !! name = None
  /\ exists a fi, (name, a, fi) ∈ fields m /\ fi_default fi = Undefined.
Proof.
  rewrite elem_of_validation_errors. split.
  - intros (a & fi & Hf & He). unfold lookup_errors in He.
    destruct (input !! name) as [v|].
    + exfalso. exact (validate_not_missing a fi (convert a v) He).
    + split; [reflexivity |]. exists a, fi. split; [exact Hf |].
      destruct (fi_default fi); [reflexivity | inversion He | inversion He].
  - intros (Hnone & a & fi & Hf & Hd). exists a, fi. split; [exact Hf |].
    rewrite Hnone. simpl. rewrite Hd. apply list_elem_of_here.
Qed.


Lemma errors_at_field (m : Model) (input : obj) (name : string) (a : Ann)
  (fi : FieldInfo) (e : ErrorType) :
  m ∈ models.all -> (name, a, fi) ∈ fields m ->
  (name, e) ∈ validation_errors m input <-> e ∈ lookup_errors a fi (input !! name).
Proof.
  intros Hm Hf. pose proof (field_names_NoDup m Hm) as Hnd.
  apply validation_errors_at; [exact Hnd |].
  apply lookup_field_Some; assumption.
Qed.

Lemma no_error_iff_nil (m : Model) (input : obj) (name : string) (a : Ann)
  (fi : FieldInfo) :
  m ∈ models.all -> (name, a, fi) ∈ fields m ->
  (exists e, (name, e) ∈ validation_errors m input)
  <-> lookup_errors a fi (input !! name) <> [].
Proof.
  intros Hm Hf. split.
  - intros [e He] Hnil. apply (errors_at_field m input name a fi e Hm Hf) in He.
    rewrite Hnil in He. inversion He.
  - intros Hne. destruct (lookup_errors a fi (input !! name)) as [|e l] eqn:E;
      [congruence |].
    exists e. apply (errors_at_field m input name a fi e Hm Hf).
    rewrite E. apply list_elem_of_here.
Qed.

(** X3. [None] is accepted by the fields annotated [Optional[...]] and by no
    other field. *)
Theorem none_accepted_only_where_optional
  (m : Model) (input : obj) (name : string) (a : Ann) (fi : FieldInfo) :
  m ∈ models.all -> (name, a, fi) ∈ fields m ->
  input !! name = Some VNone ->
  ((exists e, (name, e) ∈ validation_errors m input) <-> is_optional a = false).
Proof.
  intros Hm Hf Hin. rewrite (no_error_iff_nil m input name a fi Hm Hf), Hin.
  cbn [lookup_errors]. rewrite convert_None.
  assert (Hall : Forall (fun m => Forall (fun f =>
            bool_decide (validate f.1.2 f.2 VNone = []) = is_optional f.1.2)
            (fields m)) models.all) by by_evaluation.
  rewrite Forall_forall in Hall. specialize (Hall m Hm).
  rewrite Forall_forall in Hall. specialize (Hall (name, a, fi) Hf). simpl in Hall.
  rewrite <- Hall. rewrite bool_decide_eq_false. reflexivity.
Qed.

(** X4. A string field with [max_length=n] reports an error exactly for the
    strings longer than [n], and the error is [string_too_long]. *)
Theorem max_length_enforced
  (now : Clock) (m : Model) (input : obj) (name : string) (a : Ann)
  (fi : FieldInfo) (n : nat) (s : string) :
  m ∈ models.all -> (name, a, fi) ∈ fields m ->
  fi_max_length fi = Some n ->
  input !! name = Some (VStr s) ->
  ((exists e, (name, e) ∈ validation_errors m input) <-> (n < len s)%nat)
  /\ ((n < len s)%nat ->
      (name, string_too_long) ∈ validation_errors m input
      /\ exists errs, model_validate now m input = inl errs).
Proof.
  intros Hm Hf Hmax Hin.
  assert (Hall : Forall (fun m => Forall (fun f =>
            fi_max_length f.2 <> None ->
            inner f.1.2 = TStr /\ fi_min_length f.2 = None) (fields m)) models.all)
    by by_evaluation.
  rewrite Forall_forall in Hall. specialize (Hall m Hm).
  rewrite Forall_forall in Hall. specialize (Hall (name, a, fi) Hf). simpl in Hall.
  destruct Hall as [Ha Hmin]; [congruence |].
  assert (Hv : lookup_errors a fi (Some (VStr s))
               = if (n <? len s)%nat then [string_too_long] else []).
  { destruct a; simpl in Ha; try discriminate; subst; simpl;
      unfold check_str; rewrite Hmin, Hmax; reflexivity. }
  assert (Hlong : (n < len s)%nat ->
                  (name, string_too_long) ∈ validation_errors m input).
  { intros Hn. apply (errors_at_field m input name a fi _ Hm Hf).
    rewrite Hin, Hv. apply Nat.ltb_lt in Hn. rewrite Hn. apply list_elem_of_here. }
  split.
  - rewrite (no_error_iff_nil m input name a fi Hm Hf), Hin, Hv.
    destruct (n <? len s)%nat eqn:E.
    + apply Nat.ltb_lt in E. split; [intros _; exact E | intros _; discriminate].
    + apply Nat.ltb_ge in E. split; [congruence | lia].
  - intros Hn. split; [exact (Hlong Hn) |].
    exists (validation_errors m input). apply model_validate_inl.
    split; [reflexivity |]. intros Hnil. specialize (Hlong Hn).
    rewrite Hnil in Hlong. inversion Hlong.
Qed.

(** X5. A field of an enumeration type accepts exactly the strings that are
    values of its members. *)
Theorem enum_fields_closed
  (m : Model) (input : obj) (name : string) (a : Ann) (fi : FieldInfo)
  (e : EnumClass) (s : string) :
  m ∈ models.all -> (name, a, fi) ∈ fields m ->
  inner a = TEnum e ->
  input !! name = Some (VStr s) ->
  ((exists err, (name, err) ∈ validation_errors m input)
   <-> s ∉ map snd (members e))
  /\ (forall err, (name, err) ∈ validation_errors m input -> err = enum).
Proof.
  intros Hm Hf Ha Hin.
  assert (Hv : lookup_errors a fi (Some (VStr s))
               = if bool_decide (s ∈ map snd (members e)) then [] else [enum]).
  { destruct a; simpl in Ha; try discriminate.
    - injection Ha as ->. reflexivity.
    - subst a. reflexivity. }
  split.
  - rewrite (no_error_iff_nil m input name a fi Hm Hf), Hin, Hv.
    case_bool_decide as Hmem; split; try congruence; try tauto.
  - intros err He. apply (errors_at_field m input name a fi err Hm Hf) in He.
    rewrite Hin, Hv in He. case_bool_decide; [inversion He |].
    apply list_elem_of_singleton in He. exact He.
Qed.


(** X6. The two [passenger_count] fields of the request shapes are the only
    fields with a lower bound; any other integer field takes every
    integer. *)
Theorem integers_unbounded_elsewhere
  (m : Model) (input : obj) (name : string) (a : Ann) (fi : FieldInfo) (z : Z) :
  m ∈ models.all -> (name, a, fi) ∈ fields m ->
  inner a = TInt ->
  (cls_name m, name) ∉ [("RouteSearch", "passenger_count");
                        ("BookingCreate", "passenger_count")] ->
  input !! name = Some (VInt z) ->
  bounded_fields models.all
  = [("RouteSearch", "passenger_count", 1); ("BookingCreate", "passenger_count", 1)]
  /\ forall e, (name, e) ∉ validation_errors m input.
Proof.
  intros Hm Hf Ha Hother Hin. split; [vm_compute; reflexivity |].
  assert (Hall : Forall (fun m => Forall (fun f =>
            fi_ge f.2 <> None ->
            (cls_name m, f.1.1) ∈ [("RouteSearch", "passenger_count");
                                   ("BookingCreate", "passenger_count")])
            (fields m)) models.all) by by_evaluation.
  rewrite Forall_forall in Hall. specialize (Hall m Hm).
  rewrite Forall_forall in Hall. specialize (Hall (name, a, fi) Hf). simpl in Hall.
  assert (Hge : fi_ge fi = None).
  { destruct (fi_ge fi) eqn:E; [| reflexivity]. exfalso. apply Hother, Hall. discriminate. }
  intros e He. apply (errors_at_field m input name a fi e Hm Hf) in He.
  rewrite Hin in He.
  destruct a; simpl in Ha; try discriminate; subst; simpl in He;
    unfold check_int in He; rewrite Hge in He; inversion He.
Qed.

(** X7. No pair of start and end dates is compared: any two valid dates, in
    either order, raise no error at either field. *)
Theorem date_ranges_unordered
  (m : Model) (first last : string) (input : obj) (d1 d2 : date) :
  (m, first, last) ∈ [ (models.Schedule, "effective_from", "effective_until");
                       (models.ScheduleCreate, "effective_from", "effective_until");
                       (models.SeasonalPrice, "start_date", "end_date");
                       (models.SalesReportFilters, "start_date", "end_date") ] ->
  input !! first = Some (VDate d1) -> input !! last = Some (VDate d2) ->
  valid_date d1 = true -> valid_date d2 = true ->
  forall name e, (name, e) ∈ validation_errors m input ->
                 name <> first /\ name <> last.
Proof.
  intros Hm H1 H2 Hv1 Hv2 name e He.
  assert (Hall : Forall (fun t : Model * string * string =>
            t.1.1 ∈ models.all
            /\ Exists (fun f => f.1.1 = t.1.2 /\ inner f.1.2 = TDate) (fields t.1.1)
            /\ Exists (fun f => f.1.1 = t.2 /\ inner f.1.2 = TDate) (fields t.1.1))
            [ (models.Schedule, "effective_from", "effective_until");
              (models.ScheduleCreate, "effective_from", "effective_until");
              (models.SeasonalPrice, "start_date", "end_date");
              (models.SalesReportFilters, "start_date", "end_date") ])
    by by_evaluation.
  rewrite Forall_forall in Hall. destruct (Hall _ Hm) as (Hin & Hf1 & Hf2).
  simpl in Hin, Hf1, Hf2. clear Hall Hm.
  assert (Hdate : forall k a fi d, (k, a, fi) ∈ fields m -> inner a = TDate ->
            input !! k = Some (VDate d) -> valid_date d = true -> name <> k).
  { intros k a fi d Hf Ha Hk Hvd ->.
    apply (errors_at_field m input k a fi e Hin Hf) in He. rewrite Hk in He.
    destruct a; simpl in Ha; try discriminate; subst; simpl in He;
      rewrite Hvd in He; inversion He. }
  apply Exists_exists in Hf1 as ([[k1 a1] fi1] & Hf1 & Hk1 & Ha1).
  apply Exists_exists in Hf2 as ([[k2 a2] fi2] & Hf2 & Hk2 & Ha2).
  simpl in Hk1, Ha1, Hk2, Ha2. subst k1 k2. split.
  - exact (Hdate first a1 fi1 d1 Hf1 Ha1 H1 Hv1).
  - exact (Hdate last a2 fi2 d2 Hf2 Ha2 H2 Hv2).
Qed.

(** X8. Every [foreign_key] stands on an integer column of a table class and
    names the [id] primary key of a table of this file. *)
Theorem foreign_keys_resolve
  (m : Model) (name : string) (a : Ann) (fi : FieldInfo) (target : string) :
  m ∈ models.all -> (name, a, fi) ∈ fields m ->
  fi_foreign_key fi = Some target ->
  table m = true /\ inner a = TInt
  /\ exists m' t,
       referenced target models.all = Some m' /\ m' ∈ models.all
       /\ table m' = true /\ tablename m' = Some t
       /\ target = t +:+ ".id"
       /\ lookup_field m' "id"
          = Some (TOptional TInt, Field [Kw.default VNone; Kw.primary_key true]).
Proof.
  intros Hm Hf Hfk.
  assert (Hall : Forall (fun m => Forall (fun f =>
            match fi_foreign_key f.2 with
            | None => true
            | Some target =>
                bool_decide (table m = true /\ inner f.1.2 = TInt)
                && match referenced target models.all with
                   | None => false
                   | Some m' =>
                       bool_decide (m' ∈ models.all /\ table m' = true
                         /\ (fun t => t +:+ ".id") <$> tablename m' = Some target
                         /\ lookup_field m' "id"
                            = Some (TOptional TInt,
                                    Field [Kw.default VNone; Kw.primary_key true]))
                   end
            end = true) (fields m)) models.all) by by_evaluation.
  rewrite Forall_forall in Hall. specialize (Hall m Hm).
  rewrite Forall_forall in Hall. specialize (Hall (name, a, fi) Hf).
  cbn [fst snd] in Hall.
  rewrite Hfk in Hall. apply andb_true_iff in Hall as [H1 H2].
  apply bool_decide_eq_true in H1 as [Ht Ha]. split; [exact Ht |]. split; [exact Ha |].
  destruct (referenced target models.all) as [m'|]; [| discriminate].
  apply bool_decide_eq_true in H2 as (Hm' & Ht' & Htn & Hid).
  destruct (tablename m') as [t|] eqn:Et; [| discriminate].
  simpl in Htn. injection Htn as <-. exists m', t.
  split; [reflexivity |]. split; [exact Hm' |]. split; [exact Ht' |].
  split; [exact Et |]. split; [reflexivity | exact Hid].
Qed.


(** X9. Relationships come in mutual pairs, one side a list and the other a
    single object, and each pair rests on a foreign key of the class on the
    single-object side: the one [foreign_keys] names, or the only one there
    is. *)
Theorem relationships_are_mutual
  (m : Model) (r : string) (many : bool) (tgt bp : string) (fk : option string) :
  m ∈ models.all ->
  (r, Relationship many tgt bp fk) ∈ relationships m ->
  exists m',
    find_class tgt models.all = Some m' /\ m' ∈ models.all
    /\ (bp, Relationship (negb many) (cls_name m) r fk) ∈ relationships m'
    /\ match fk with
       | None =>
           length (fk_columns (if many then m' else m) (if many then m else m'))
           = 1%nat
       | Some s =>
           s ∈ map (fun c => cls_name (if many then m' else m) +:+ "." +:+ c)
                 (fk_columns (if many then m' else m) (if many then m else m'))
       end.
Proof.
  intros Hm Hr.
  assert (Hall : Forall (fun m => Forall (fun x : string * RelationshipInfo =>
            match find_class (rel_target x.2) models.all with
            | None => false
            | Some m' =>
                bool_decide
                  (m' ∈ models.all
                   /\ (back_populates x.2,
                       Relationship (negb (rel_many x.2)) (cls_name m) x.1
                         (rel_foreign_keys x.2)) ∈ relationships m')
                && match rel_foreign_keys x.2 with
                   | None =>
                       bool_decide
                         (length (fk_columns (if rel_many x.2 then m' else m)
                                    (if rel_many x.2 then m else m')) = 1%nat)
                   | Some s =>
                       bool_decide
                         (s ∈ map (fun c => cls_name (if rel_many x.2 then m' else m)
                                            +:+ "." +:+ c)
                                (fk_columns (if rel_many x.2 then m' else m)
                                   (if rel_many x.2 then m else m')))
                   end
            end = true) (relationships m)) models.all) by by_evaluation.
  rewrite Forall_forall in Hall. specialize (Hall m Hm).
  rewrite Forall_forall in Hall. specialize (Hall _ Hr). cbn [fst snd] in Hall.
  cbn [rel_target rel_many back_populates rel_foreign_keys] in Hall.
  destruct (find_class tgt models.all) as [m'|]; [| discriminate].
  apply andb_true_iff in Hall as [H1 H2].
  apply bool_decide_eq_true in H1 as [Hm' Hback].
  exists m'. split; [reflexivity |]. split; [exact Hm' |]. split; [exact Hback |].
  destruct fk; apply bool_decide_eq_true in H2; exact H2.
Qed.

(** X10. A table class has a table name and the single primary key
    [id: Optional[int] = None]; a request shape has no table name, no
    primary key, no unique column, no foreign key and no relationship. *)
Theorem tables_and_shapes (m : Model) :
  m ∈ models.all ->
  if table m
  then tablename m <> None
       /\ db.primary_keys m = ["id"]
       /\ lookup_field m "id"
          = Some (TOptional TInt, Field [Kw.default VNone; Kw.primary_key true])
  else tablename m = None
       /\ db.unique_columns m = []
       /\ Forall (fun f => fi_foreign_key f.2 = None) (fields m)
       /\ relationships m = [].
Proof.
  intros Hm.
  assert (Hall : Forall (fun m =>
            (if table m
            then bool_decide
                   (tablename m <> None
                    /\ db.primary_keys m = ["id"]
                    /\ lookup_field m "id"
                       = Some (TOptional TInt,
                               Field [Kw.default VNone; Kw.primary_key true]))
            else bool_decide
                   (tablename m = None
                    /\ db.unique_columns m = []
                    /\ Forall (fun f => fi_foreign_key f.2 = None) (fields m)
                    /\ relationships m = [])) = true) models.all) by by_evaluation.
  rewrite Forall_forall in Hall. specialize (Hall m Hm). cbv beta in Hall.
  destruct (table m); apply bool_decide_eq_true in Hall; exact Hall.
Qed.

(** X11. [unique=True] stands on these six fields and on no other. *)
Theorem unique_fields_exactly :
  unique_fields models.all
  = [ ("Language", "code"); ("User", "email"); ("Location", "code");
      ("Booking", "booking_reference"); ("Payment", "payment_reference");
      ("SystemSettings", "key") ].
Proof. vm_compute. reflexivity. Qed.


Lemma fold_digits_bound (ds : list Z) (acc : Z) :
  Forall (fun x => 0 <= x <= 9) ds -> 0 <= acc ->
  0 <= fold_left (fun acc x => 10 * acc + x) ds acc
    < (acc + 1) * 10 ^ Z.of_nat (length ds).
Proof.
  revert acc. induction ds as [|x ds IH]; intros acc Hds Hacc.
  - simpl. lia.
  - apply Forall_cons in Hds as [Hx Hds].
    cbn [fold_left length]. specialize (IH (10 * acc + x) Hds ltac:(lia)).
    rewrite Nat2Z.inj_succ, Z.pow_succ_r by lia.
    assert (0 < 10 ^ Z.of_nat (length ds)) by (apply Z.pow_pos_nonneg; lia).
    nia.
Qed.

Lemma coefficient_bound (d : Decimal) :
  valid_decimal d = true ->
  0 <= coefficient (digits d) < 10 ^ Z.of_nat (length (digits d)).
Proof.
  intros Hv. unfold valid_decimal in Hv. apply andb_true_iff in Hv as [Hds _].
  pose proof (fold_digits_bound (digits d) 0) as H. unfold coefficient.
  rewrite Z.mul_1_l in H. apply H; [| lia].
  apply Forall_forall. intros x Hx.
  rewrite forallb_forall in Hds. specialize (Hds x ltac:(apply list_elem_of_In; exact Hx)).
  lia.
Qed.

(** Stripping zeros keeps the value: the coefficient loses a power of ten
    that the exponent gains. *)
Lemma strip_zeros_value (fuel : nat) (c e : Z) :
  e <= (strip_zeros fuel c e).2
  /\ c = (strip_zeros fuel c e).1 * 10 ^ ((strip_zeros fuel c e).2 - e).
Proof.
  revert c e. induction fuel as [|f IH]; intros c e; simpl.
  - rewrite Z.sub_diag. simpl. lia.
  - destruct ((c mod 10 =? 0) && (e <? Emax)) eqn:E.
    + apply andb_true_iff in E as [E0 _]. apply Z.eqb_eq in E0.
      destruct (IH (c / 10) (e + 1)) as [Hle Hval].
      split; [lia |].
      set (r := strip_zeros f (c / 10) (e + 1)) in *.
      replace (r.2 - e) with (Z.succ (r.2 - (e + 1))) by lia.
      rewrite Z.pow_succ_r by lia.
      assert (Hc : c = 10 * (c / 10)).
      { pose proof (Z.div_mod c 10 ltac:(lia)). lia. }
      rewrite Hc at 1. rewrite Hval at 1. ring.
    + simpl. rewrite Z.sub_diag. simpl. lia.
Qed.

(** A decimal with at most 28 digits and an exponent of [Etiny] or more is
    exact in the context: [normalize] raises, or gives zero, or only moves
    trailing zeros of the coefficient into the exponent. *)
Lemma normalize_exact (d : Decimal) :
  (length (digits d) <= 28)%nat -> Etiny <= exponent d ->
  normalize d = None
  \/ coefficient (digits d) = 0
  \/ exists c' e',
       normalize d = Some (DecimalTuple (sign d) (to_digits c') e')
       /\ exponent d <= e'
       /\ coefficient (digits d) = c' * 10 ^ (e' - exponent d).
Proof.
  intros HL He. unfold normalize, fix_context.
  destruct (coefficient (digits d) =? 0) eqn:E0.
  - right. left. apply Z.eqb_eq. exact E0.
  - destruct (Etop <? _) eqn:E1; [left; reflexivity |].
    assert (E2 : (exponent d
                  <? Z.max (Z.of_nat (length (digits d)) + exponent d - prec) Etiny)
                 = false).
    { apply Z.ltb_ge. unfold prec. lia. }
    rewrite E2, E0. right. right.
    pose proof (strip_zeros_value
                  (S (Z.to_nat (Z.log2 (coefficient (digits d)))))
                  (coefficient (digits d)) (exponent d)) as [Hle Hval].
    destruct (strip_zeros _ _ _) as [c' e']. simpl in Hle, Hval.
    exists c', e'. split; [reflexivity |]. split; assumption.
Qed.

Lemma pow10_pos (k : Z) : 0 <= k -> 0 < 10 ^ k.
Proof. intros Hk. apply Z.pow_pos_nonneg; lia. Qed.

(** What the digit check leaves through, for a decimal that is exact in
    the context: the value times [10 ^ decimal_places] is a whole number
    [n] below [10 ^ max_digits]. *)
Lemma check_decimal_fits (fi : FieldInfo) (d : Decimal) (md dp : nat) :
  fi_max_digits fi = Some md -> fi_decimal_places fi = Some dp -> (dp <= md)%nat ->
  valid_decimal d = true ->
  (length (digits d) <= 28)%nat -> Etiny <= exponent d ->
  check_decimal fi d = [] ->
  exists n,
    0 <= n < 10 ^ Z.of_nat md
    /\ coefficient (digits d) * 10 ^ Z.max 0 (Z.of_nat dp + exponent d)
       = n * 10 ^ Z.max 0 (- (Z.of_nat dp + exponent d)).
Proof.
  intros Hmd Hdp Hle Hvalid HL HE.
  pose proof (coefficient_bound d Hvalid) as [Hc0 Hc].
  set (c := coefficient (digits d)) in *.
  set (L := Z.of_nat (length (digits d))) in *.
  set (e := exponent d) in *.
  unfold check_decimal. rewrite Hmd, Hdp.
  destruct (decimal_digits_info d) as [nd dec] eqn:Eraw.
  destruct (decimal_digits_info (default d (normalize d))) as [nd' dec'] eqn:Enorm.
  destruct ((md <? nd)%nat && (md <? nd')%nat); [discriminate |].
  destruct ((dp <? dec)%nat && (dp <? dec')%nat) eqn:Eplaces; [discriminate |].
  destruct (md - dp <? nd - dec)%nat eqn:Ewhole; [discriminate |]. intros _.
  apply Nat.ltb_ge in Ewhole.
  (* the digits left of the point, on the decimal as given *)
  assert (Hwhole : L + e <= Z.of_nat md - Z.of_nat dp
                   /\ Z.of_nat dec = Z.max 0 (- e)).
  { unfold decimal_digits_info in Eraw. fold e in Eraw.
    destruct (0 <=? e) eqn:E0; injection Eraw as <- <-.
    - apply Z.leb_le in E0. unfold L. lia.
    - apply Z.leb_gt in E0. unfold L. lia. }
  destruct Hwhole as [Hwhole Hdec].
  assert (Hbound : forall n k, 0 <= k -> c = n * 10 ^ k ->
             L <= Z.of_nat md + k -> 0 <= n < 10 ^ Z.of_nat md).
  { intros n k Hk Hn HLk. pose proof (pow10_pos k Hk) as Hp.
    split; [nia |].
    destruct (Z.lt_ge_cases n (10 ^ Z.of_nat md)) as [Hlt | Hge]; [exact Hlt |].
    exfalso.
    assert (10 ^ L <= 10 ^ (Z.of_nat md + k)) by (apply Z.pow_le_mono_r; unfold L; lia).
    rewrite Z.pow_add_r in H by lia. nia. }
  apply andb_false_iff in Eplaces.
  destruct (Z.le_gt_cases 0 (Z.of_nat dp + e)) as [Hin | Hout].
  - (* the places as given are within [decimal_places] *)
    exists (c * 10 ^ (Z.of_nat dp + e)).
    rewrite Z.max_r by lia. rewrite (Z.max_l 0 (- _)) by lia.
    split; [| simpl; ring].
    pose proof (pow10_pos _ Hin) as Hp. split; [nia |].
    apply Z.lt_le_trans with (10 ^ L * 10 ^ (Z.of_nat dp + e)).
    + apply Z.mul_lt_mono_pos_r; assumption.
    + rewrite <- Z.pow_add_r by (unfold L; lia). apply Z.pow_le_mono_r; lia.
  - (* they are not: then those of the normal form are *)
    assert (Hdec' : (dec' <= dp)%nat).
    { destruct Eplaces as [E | E]; apply Nat.ltb_ge in E; [lia | exact E]. }
    rewrite (Z.max_l 0 (_ + _)) by lia. rewrite (Z.max_r 0 (- _)) by lia.
    destruct (normalize_exact d HL HE) as [Hnone | [Hzero | (c' & e' & Hn & He' & Hval)]].
    + exfalso. rewrite Hnone in Enorm. simpl in Enorm.
      rewrite Eraw in Enorm. injection Enorm as _ <-. lia.
    + exists 0. fold c in Hzero. rewrite Hzero. split; [| ring].
      split; [lia | apply pow10_pos; lia].
    + rewrite Hn in Enorm. simpl in Enorm.
      unfold decimal_digits_info in Enorm. simpl in Enorm.
      assert (He'' : 0 <= Z.of_nat dp + e').
      { destruct (0 <=? e') eqn:E0; injection Enorm as _ <-.
        - apply Z.leb_le in E0. lia.
        - apply Z.leb_gt in E0. lia. }
      fold c e in Hval.
      exists (c' * 10 ^ (Z.of_nat dp + e')).
      assert (Heq : c * 10 ^ 0
                    = c' * 10 ^ (Z.of_nat dp + e') * 10 ^ (- (Z.of_nat dp + e))).
      { rewrite <- Z.mul_assoc, <- Z.pow_add_r by lia.
        replace (Z.of_nat dp + e' + - (Z.of_nat dp + e)) with (e' - e) by lia.
        simpl. lia. }
      split; [| exact Heq].
      apply (Hbound _ (- (Z.of_nat dp + e))); [lia | | lia].
      simpl in Heq. lia.
Qed.

(** X12. A decimal that a field accepts fits the column the field declares.
    For a decimal of at most 28 digits with an exponent of [Etiny] or more
    (one the context of [normalize] holds exactly), supplied as it is or
    converted from an [int]: its value times [10 ^ decimal_places] is a
    whole number [n] below [10 ^ max_digits].  The equation is the one of
    [coefficient * 10 ^ (decimal_places + exponent) = n], with a negative
    power moved to the other side.  The decimal keeps the exponent it came
    with: [Decimal('25.000')] passes at two places, with [n = 2500]. *)
Theorem accepted_decimals_fit_column
  (m : Model) (input : obj) (name : string) (a : Ann) (fi : FieldInfo)
  (v : Value) (d : Decimal) :
  m ∈ models.all -> (name, a, fi) ∈ fields m ->
  inner a = TDecimal ->
  input !! name = Some v -> convert a v = VDecimal d ->
  (forall e, (name, e) ∉ validation_errors m input) ->
  (length (digits d) <= 28)%nat -> Etiny <= exponent d ->
  exists (md dp : nat) (n : Z),
    fi_max_digits fi = Some md /\ fi_decimal_places fi = Some dp
    /\ 0 <= n < 10 ^ Z.of_nat md
    /\ coefficient (digits d) * 10 ^ Z.max 0 (Z.of_nat dp + exponent d)
       = n * 10 ^ Z.max 0 (- (Z.of_nat dp + exponent d)).
Proof.
  intros Hm Hf Ha Hin Hconv Hnone HL HE.
  assert (Hall : Forall (fun m => Forall (fun f =>
            inner f.1.2 = TDecimal ->
            match fi_max_digits f.2, fi_decimal_places f.2 with
            | Some md, Some dp => (dp <= md)%nat
            | _, _ => False
            end) (fields m)) models.all).
  { apply Forall_forall. intros m0 Hm0. apply Forall_forall. intros f Hf0 Ha0.
    assert (Hb : Forall (fun m => Forall (fun f =>
              bool_decide (inner f.1.2 = TDecimal) = true ->
              match fi_max_digits f.2, fi_decimal_places f.2 with
              | Some md, Some dp => (dp <=? md)%nat
              | _, _ => false
              end = true) (fields m)) models.all) by by_evaluation.
    rewrite Forall_forall in Hb. specialize (Hb m0 Hm0).
    rewrite Forall_forall in Hb. specialize (Hb f Hf0).
    rewrite bool_decide_eq_true in Hb. specialize (Hb Ha0).
    destruct (fi_max_digits f.2), (fi_decimal_places f.2); try discriminate.
    apply Nat.leb_le. exact Hb. }
  rewrite Forall_forall in Hall. specialize (Hall m Hm).
  rewrite Forall_forall in Hall. specialize (Hall (name, a, fi) Hf Ha).
  cbn [fst snd] in Hall.
  destruct (fi_max_digits fi) as [md|] eqn:Hmd; [| contradiction].
  destruct (fi_decimal_places fi) as [dp|] eqn:Hdp; [| contradiction].
  exists md, dp.
  assert (Hv : valid_decimal d = true /\ check_decimal fi d = []).
  { destruct (validate a fi (VDecimal d)) as [|e l] eqn:E.
    - destruct a; simpl in Ha; try discriminate; subst; simpl in E;
        destruct (valid_decimal d); try discriminate; auto.
    - exfalso. apply (Hnone e). apply (errors_at_field m input name a fi e Hm Hf).
      rewrite Hin. cbn [lookup_errors]. rewrite Hconv, E. apply list_elem_of_here. }
  destruct Hv as [Hvalid Hcheck].
  destruct (check_decimal_fits fi d md dp Hmd Hdp Hall Hvalid HL HE Hcheck)
    as (n & Hn & Heq).
  exists n. split; [reflexivity |]. split; [reflexivity |]. split; assumption.
Qed.

Lemma weaker_cases {A : Type} `{EqDecision A} (c' c : option A) :
  weaker c' c = true -> c' = None \/ c' = c.
Proof. unfold weaker. apply bool_decide_eq_true. Qed.

Lemma check_int_no_stricter (fi fi' : FieldInfo) (z : Z) :
  no_stricter fi' fi = true -> check_int fi z = [] -> check_int fi' z = [].
Proof.
  unfold no_stricter. rewrite !andb_true_iff. intros [[[[Hge _] _] _] _].
  unfold check_int. destruct (weaker_cases _ _ Hge) as [-> | ->]; auto.
Qed.

Lemma check_str_no_stricter (fi fi' : FieldInfo) (s : string) :
  no_stricter fi' fi = true -> check_str fi s = [] -> check_str fi' s = [].
Proof.
  unfold no_stricter. rewrite !andb_true_iff. intros [[[[_ Hmin] Hmax] _] _].
  unfold check_str.
  destruct (weaker_cases _ _ Hmin) as [-> | ->], (weaker_cases _ _ Hmax) as [-> | ->];
    repeat case_match; auto; discriminate.
Qed.

Lemma check_decimal_no_stricter (fi fi' : FieldInfo) (d : Decimal) :
  no_stricter fi' fi = true -> check_decimal fi d = [] -> check_decimal fi' d = [].
Proof.
  unfold no_stricter. rewrite !andb_true_iff. intros [[[[_ _] _] Hmd] Hdp].
  unfold check_decimal.
  destruct (weaker_cases _ _ Hmd) as [-> | ->], (weaker_cases _ _ Hdp) as [-> | ->];
    repeat case_match; auto; discriminate.
Qed.

(** Dropping constraints never turns an accepted value into a rejected
    one. *)
Lemma validate_no_stricter (a : Ann) (fi fi' : FieldInfo) (v : Value) :
  no_stricter fi' fi = true -> validate a fi v = [] -> validate a fi' v = [].
Proof.
  intros Hns. revert v.
  induction a as [| | | | | | | | e | t IH | t IH | t IH]; intros v; simpl; auto.
  - destruct v; auto. apply check_int_no_stricter. exact Hns.
  - destruct v; auto. apply check_str_no_stricter. exact Hns.
  - destruct v; auto. destruct (valid_decimal d); auto.
    apply check_decimal_no_stricter. exact Hns.
  - destruct v; auto.
Qed.

Lemma validate_inner (a : Ann) (fi : FieldInfo) (v : Value) :
  v <> VNone -> validate a fi v = validate (inner a) fi v.
Proof. intros Hv. destruct a; try reflexivity. destruct v; try reflexivity. congruence. Qed.

Lemma convert_inner (a : Ann) (v : Value) : convert a v = convert (inner a) v.
Proof. destruct a; reflexivity. Qed.

Lemma convert_not_None (a : Ann) (v : Value) : v <> VNone -> convert a v <> VNone.
Proof.
  intros Hv. induction a; try exact IHa;
    destruct v; simpl; try congruence; try discriminate.
  destruct (parse_int s); discriminate.
Qed.

(** On a field that a request shape shares with its entity, the entity has
    the same type and no constraint the shape lacks. *)
Lemma shared_fields_agree (shape entity : Model) (name : string)
  (a a' : Ann) (fi fi' : FieldInfo) :
  (shape, entity) ∈ shape_entity_pairs ->
  (name, a, fi) ∈ fields shape -> (name, a', fi') ∈ fields entity ->
  inner a = inner a' /\ no_stricter fi' fi = true.
Proof.
  intros Hp Hf Hf'.
  assert (Hall : Forall (fun p : Model * Model =>
            Forall (fun f => Forall (fun f' =>
              f.1.1 = f'.1.1 ->
              inner f.1.2 = inner f'.1.2 /\ no_stricter f'.2 f.2 = true)
              (fields p.2)) (fields p.1)) shape_entity_pairs) by by_evaluation.
  rewrite Forall_forall in Hall. specialize (Hall _ Hp). cbn [fst snd] in Hall.
  rewrite Forall_forall in Hall. specialize (Hall _ Hf).
  rewrite Forall_forall in Hall. exact (Hall _ Hf' eq_refl).
Qed.

(** X13. What a request shape accepts for a field, the entity it feeds accepts
    for the field of the same name. *)
Theorem shape_values_pass_entity
  (shape entity : Model) (input input' : obj) (name : string) (v : Value) :
  (shape, entity) ∈ shape_entity_pairs ->
  name ∈ field_names shape -> name ∈ field_names entity ->
  input !! name = Some v -> input' !! name = Some v -> v <> VNone ->
  (forall e, (name, e) ∉ validation_errors shape input) ->
  forall e, (name, e) ∉ validation_errors entity input'.
Proof.
  intros Hp Hs He Hin Hin' Hv Hok e Herr.
  assert (Hmem : Forall (fun p : Model * Model =>
            p.1 ∈ models.all /\ p.2 ∈ models.all) shape_entity_pairs)
    by by_evaluation.
  rewrite Forall_forall in Hmem. destruct (Hmem _ Hp) as [Hms Hme]. simpl in Hms, Hme.
  apply list_elem_of_fmap in Hs as ([[n a] fi] & -> & Hf).
  apply list_elem_of_fmap in He as ([[n' a'] fi'] & Hn & Hf'). simpl in Hn. subst n'.
  simpl in *.
  destruct (shared_fields_agree shape entity n a a' fi fi' Hp Hf Hf') as [Ha Hns].
  apply (errors_at_field entity input' n a' fi' e Hme Hf') in Herr.
  rewrite Hin' in Herr. cbn [lookup_errors] in Herr.
  assert (Hnil : validate a fi (convert a v) = []).
  { destruct (validate a fi (convert a v)) as [|e0 l] eqn:E; [reflexivity |].
    exfalso. apply (Hok e0). apply (errors_at_field shape input n a fi e0 Hms Hf).
    rewrite Hin. cbn [lookup_errors]. rewrite E. apply list_elem_of_here. }
  pose proof (convert_not_None a v Hv) as Hw.
  rewrite (convert_inner a' v), <- Ha, <- (convert_inner a v) in Herr.
  rewrite (validate_inner a' fi' _ Hw), <- Ha, <- (validate_inner a fi' _ Hw) in Herr.
  rewrite (validate_no_stricter a fi fi' _ Hns Hnil) in Herr. inversion Herr.
Qed.


(** X14. A payload that [ScheduleCreate] accepts builds a [Schedule]: the
    validated payload passes the validation of [Schedule], and the schedule
    has every field of the payload, no [id] yet and status active. *)
Theorem schedule_create_builds_schedule
  (now now' : Clock) (input r : obj) :
  model_validate now models.ScheduleCreate input = inr r ->
  exists s,
    model_validate now' models.Schedule r = inr s
    /\ (forall k, k ∈ field_names models.ScheduleCreate -> s !! k = r !! k)
    /\ s !! "id" = Some VNone
    /\ s !! "status" = Some models.ScheduleStatus_ACTIVE
    /\ s !! "created_at" = Some (VDatetime (now' "created_at")).
Proof.
  intros Hr. apply model_validate_inr in Hr as [Hnil ->].
  set (r := construct now models.ScheduleCreate input).
  assert (Hsc : models.ScheduleCreate ∈ models.all) by by_evaluation.
  assert (Hs : models.Schedule ∈ models.all) by by_evaluation.
  assert (Hp : (models.ScheduleCreate, models.Schedule) ∈ shape_entity_pairs)
    by by_evaluation.
  pose proof (field_names_NoDup _ Hsc) as Hnd.
  pose proof (field_names_NoDup _ Hs) as Hnd'.
  (* what the validated payload holds under each of its fields *)
  assert (Hval : forall k a fi, (k, a, fi) ∈ fields models.ScheduleCreate ->
            exists v, r !! k = Some v /\ validate a fi v = []).
  { intros k a fi Hf. exists (field_value now input (k, a, fi)).
    split; [exact (construct_lookup now _ input k a fi Hnd Hf) |].
    pose proof (validation_errors_nil _ input k a fi Hnil Hf) as He.
    pose proof (defaults_conform _ k a fi Hsc Hf) as Hd.
    assert (Hno : fi_default fi <> DefaultFactoryUtcnow).
    { assert (Hall : Forall (fun f => fi_default f.2 <> DefaultFactoryUtcnow)
                (fields models.ScheduleCreate)) by by_evaluation.
      rewrite Forall_forall in Hall. exact (Hall _ Hf). }
    unfold lookup_errors in He. simpl.
    destruct (input !! k); [exact He |].
    destruct (fi_default fi); [discriminate | exact Hd | congruence]. }
  (* the entity converts nothing in a value the payload has validated *)
  assert (Hconv : forall k a a' fi fi' v,
            (k, a, fi) ∈ fields models.ScheduleCreate ->
            (k, a', fi') ∈ fields models.Schedule ->
            validate a fi v = [] -> convert a' v = v).
  { intros k a a' fi fi' v Hf Hf' Hok.
    destruct (shared_fields_agree _ _ k a a' fi fi' Hp Hf Hf') as [Ha _].
    rewrite (convert_inner a' v), <- Ha, <- (convert_inner a v).
    exact (validate_nil_convert a fi v Hok). }
  assert (Herrs : validation_errors models.Schedule r = []).
  { apply validation_errors_nil_iff. intros k a' fi' Hf'.
    destruct (decide (k ∈ field_names models.ScheduleCreate)) as [Hin | Hnot].
    - apply list_elem_of_fmap in Hin as ([[n a] fi] & -> & Hf). simpl.
      destruct (Hval n a fi Hf) as (v & Hv & Hok). rewrite Hv.
      cbn [lookup_errors]. rewrite (Hconv n a a' fi fi' v Hf Hf' Hok).
      destruct (shared_fields_agree _ _ n a a' fi fi' Hp Hf Hf') as [Ha Hns].
      destruct (decide (v = VNone)) as [-> | Hne].
      + assert (Hopt : Forall (fun f => Forall (fun f' =>
                  f.1.1 = f'.1.1 -> validate f.1.2 f.2 VNone = [] ->
                  validate f'.1.2 f'.2 VNone = [])
                  (fields models.Schedule)) (fields models.ScheduleCreate))
          by by_evaluation.
        rewrite Forall_forall in Hopt. specialize (Hopt _ Hf).
        rewrite Forall_forall in Hopt. exact (Hopt _ Hf' eq_refl Hok).
      + rewrite (validate_inner a' fi' v Hne), <- Ha, <- (validate_inner a fi' v Hne).
        exact (validate_no_stricter a fi fi' v Hns Hok).
    - unfold r. rewrite (construct_lookup_None now _ input k Hnot). simpl.
      assert (Hdef : Forall (fun f' =>
                f'.1.1 ∈ field_names models.ScheduleCreate
                \/ fi_default f'.2 <> Undefined) (fields models.Schedule))
        by by_evaluation.
      rewrite Forall_forall in Hdef. destruct (Hdef _ Hf') as [Hin | Hd];
        [contradiction |].
      simpl in Hd. destruct (fi_default fi'); [congruence | reflexivity | reflexivity]. }
  exists (construct now' models.Schedule r).
  split; [apply model_validate_inr; split; [exact Herrs | reflexivity] |].
  split.
  - intros k Hin.
    assert (Hsub : Forall (fun k => k ∈ field_names models.Schedule)
              (field_names models.ScheduleCreate)) by by_evaluation.
    rewrite Forall_forall in Hsub. specialize (Hsub k Hin).
    apply list_elem_of_fmap in Hsub as ([[n a'] fi'] & -> & Hf'). simpl.
    rewrite (construct_lookup now' _ r n a' fi' Hnd' Hf'). cbn [field_value].
    apply list_elem_of_fmap in Hin as ([[n0 a] fi] & Hn & Hf). simpl in Hn. subst n0.
    destruct (Hval n a fi Hf) as (v & Hv & Hok). rewrite Hv.
    rewrite (Hconv n a a' fi fi' v Hf Hf' Hok). reflexivity.
  - assert (Hnone : forall k, k ∉ field_names models.ScheduleCreate -> r !! k = None).
    { intros k Hk. exact (construct_lookup_None now _ input k Hk). }
    split; [| split].
    + rewrite (construct_lookup now' _ r "id" (TOptional TInt)
                 (Field [Kw.default VNone; Kw.primary_key true]) Hnd');
        [| by_evaluation].
      simpl. rewrite Hnone by by_evaluation. reflexivity.
    + rewrite (construct_lookup now' _ r "status" (TEnum models.ScheduleStatus)
                 (Field [Kw.default models.ScheduleStatus_ACTIVE]) Hnd');
        [| by_evaluation].
      simpl. rewrite Hnone by by_evaluation. reflexivity.
    + rewrite (construct_lookup now' _ r "created_at" TDatetime
                 (Field [Kw.default_factory_utcnow]) Hnd'); [| by_evaluation].
      simpl. rewrite Hnone by by_evaluation. reflexivity.
Qed.


Lemma validated_instance_revalidates_witness :
  model_validate sample.clock models.User
    (construct sample.clock models.User (sample.user "ana@example.org"))
  = inr (construct sample.clock models.User (sample.user "ana@example.org")).
Proof.
  apply (validated_instance_revalidates sample.clock sample.clock models.User
           (sample.user "ana@example.org")).
  - by_evaluation.
  - intros name. reflexivity.
  - apply model_validate_inr. split; [vm_compute; reflexivity | reflexivity].
Defined.

Lemma none_accepted_only_where_optional_witness :
  exists e, ("user_id", e) ∈ validation_errors models.Booking {[ "user_id" := VNone ]}.
Proof.
  apply (none_accepted_only_where_optional models.Booking {[ "user_id" := VNone ]}
           "user_id" TInt (Field [Kw.foreign_key "users.id"])).
  - by_evaluation.
  - by_evaluation.
  - vm_compute. reflexivity.
  - reflexivity.
Defined.

Lemma max_length_enforced_witness :
  ("currency", string_too_long)
    ∈ validation_errors models.Payment {[ "currency" := VStr "EURO" ]}
  /\ Forall (fun err => err.1 <> "code")
       (validation_errors models.Language {[ "code" := VStr "日本語" ]}).
Proof.
  split.
  - destruct (max_length_enforced sample.clock models.Payment
                {[ "currency" := VStr "EURO" ]} "currency" TStr
                (Field [Kw.default (VStr "USD"); Kw.max_length 3]) 3 "EURO")
      as (_ & Hlong).
    + by_evaluation.
    + by_evaluation.
    + reflexivity.
    + vm_compute. reflexivity.
    + apply Hlong. vm_compute. lia.
  - apply Forall_forall. intros [name e] Hin Hname. simpl in Hname. subst name.
    destruct (max_length_enforced sample.clock models.Language
                {[ "code" := VStr "日本語" ]} "code" TStr
                (Field [Kw.unique true; Kw.max_length 5;
                        Kw.description "Language code (e.g., 'en', 'id')"])
                5 "日本語")
      as (Hiff & _).
    + by_evaluation.
    + by_evaluation.
    + reflexivity.
    + vm_compute. reflexivity.
    + assert (Hlen : (5 < len "日本語")%nat) by (apply Hiff; exists e; exact Hin).
      vm_compute in Hlen. lia.
Defined.

Lemma enum_fields_closed_witness :
  exists err, ("status", err)
                ∈ validation_errors models.Booking {[ "status" := VStr "paid" ]}.
Proof.
  destruct (enum_fields_closed models.Booking {[ "status" := VStr "paid" ]} "status"
              (TEnum models.BookingStatus)
              (Field [Kw.default models.BookingStatus_PENDING])
              models.BookingStatus "paid") as (Hiff & _).
  - by_evaluation.
  - by_evaluation.
  - reflexivity.
  - vm_compute. reflexivity.
  - apply Hiff. by_evaluation.
Defined.

Lemma integers_unbounded_elsewhere_witness :
  Forall (fun err => err.1 <> "capacity")
    (validation_errors models.Fastboat {[ "capacity" := VInt (-5) ]}).
Proof.
  apply Forall_forall. intros [name e] Hin Hname. simpl in Hname. subst name.
  destruct (integers_unbounded_elsewhere models.Fastboat
              {[ "capacity" := VInt (-5) ]} "capacity" TInt
              (Field [Kw.description "Maximum number of passengers"]) (-5))
    as (_ & Hnone).
  - by_evaluation.
  - by_evaluation.
  - reflexivity.
  - by_evaluation.
  - vm_compute. reflexivity.
  - exact (Hnone e Hin).
Defined.

Lemma date_ranges_unordered_witness :
  Forall (fun err => err.1 <> "start_date" /\ err.1 <> "end_date")
    (validation_errors models.SalesReportFilters
       (<["start_date" := VDate (Date 2024 12 31)]>
          {[ "end_date" := VDate (Date 2024 1 1) ]})).
Proof.
  apply Forall_forall. intros [name e] Hin.
  refine (date_ranges_unordered models.SalesReportFilters "start_date" "end_date" _
            (Date 2024 12 31) (Date 2024 1 1) _ _ _ _ _ name e Hin);
    first [by_evaluation | vm_compute; reflexivity].
Defined.

Lemma foreign_keys_resolve_witness :
  table models.Route = true /\ inner TInt = TInt
  /\ exists m' t,
       referenced "locations.id" models.all = Some m' /\ m' ∈ models.all
       /\ table m' = true /\ tablename m' = Some t
       /\ "locations.id" = t +:+ ".id"
       /\ lookup_field m' "id"
          = Some (TOptional TInt, Field [Kw.default VNone; Kw.primary_key true]).
Proof.
  apply (foreign_keys_resolve models.Route "arrival_location_id" TInt
           (Field [Kw.foreign_key "locations.id"]) "locations.id").
  - by_evaluation.
  - by_evaluation.
  - reflexivity.
Defined.

Lemma relationships_are_mutual_witness :
  exists m',
    find_class "Route" models.all = Some m' /\ m' ∈ models.all
    /\ ("arrival_location",
        Relationship false "Location" "arrival_routes"
          (Some "Route.arrival_location_id")) ∈ relationships m'
    /\ "Route.arrival_location_id"
         ∈ map (fun c => cls_name m' +:+ "." +:+ c) (fk_columns m' models.Location).
Proof.
  apply (relationships_are_mutual models.Location "arrival_routes" true "Route"
           "arrival_location" (Some "Route.arrival_location_id")).
  - by_evaluation.
  - by_evaluation.
Defined.

Lemma tables_and_shapes_witness :
  db.primary_keys models.Passenger = ["id"].
Proof.
  pose proof (tables_and_shapes models.Passenger) as H.
  destruct H as (_ & Hpk & _); [by_evaluation | exact Hpk].
Defined.

Lemma accepted_decimals_fit_column_witness :
  exists (md dp : nat) (n : Z),
    fi_max_digits (Field [Kw.max_digits 10; Kw.decimal_places 2]) = Some md
    /\ fi_decimal_places (Field [Kw.max_digits 10; Kw.decimal_places 2]) = Some dp
    /\ 0 <= n < 10 ^ Z.of_nat md
    /\ coefficient [2; 5; 0; 0; 0] * 10 ^ Z.max 0 (Z.of_nat dp + -3)
       = n * 10 ^ Z.max 0 (- (Z.of_nat dp + -3)).
Proof.
  refine (accepted_decimals_fit_column models.Schedule
            (<["base_price" := VDecimal (DecimalTuple false [2; 5; 0; 0; 0] (-3))]>
               (sample.schedule None))
            "base_price" TDecimal _
            (VDecimal (DecimalTuple false [2; 5; 0; 0; 0] (-3)))
            (DecimalTuple false [2; 5; 0; 0; 0] (-3)) _ _ _ _ _ _ _ _).
  - by_evaluation.
  - by_evaluation.
  - reflexivity.
  - vm_compute. reflexivity.
  - reflexivity.
  - intros e He. vm_compute in He. inversion He.
  - simpl. lia.
  - vm_compute. discriminate.
Defined.

Lemma shape_values_pass_entity_witness :
  Forall (fun err => err.1 <> "passenger_count")
    (validation_errors models.Booking {[ "passenger_count" := VInt 2 ]}).
Proof.
  apply Forall_forall. intros [name e] Hin Hname. simpl in Hname. subst name.
  refine (shape_values_pass_entity models.BookingCreate models.Booking
            {[ "passenger_count" := VInt 2 ]} {[ "passenger_count" := VInt 2 ]}
            "passenger_count" (VInt 2) _ _ _ _ _ _ _ e Hin);
    try by_evaluation; try (vm_compute; reflexivity); try discriminate.
  intros e' He'. vm_compute in He'.
  repeat (apply elem_of_cons in He' as [He' | He']; [discriminate |]). inversion He'.
Defined.

Lemma schedule_create_builds_schedule_witness :
  exists s,
    model_validate sample.clock models.Schedule
      (construct sample.clock models.ScheduleCreate (sample.schedule (Some [0; 2; 4])))
    = inr s
    /\ (forall k, k ∈ field_names models.ScheduleCreate ->
                  s !! k = construct sample.clock models.ScheduleCreate
                             (sample.schedule (Some [0; 2; 4])) !! k)
    /\ s !! "id" = Some VNone
    /\ s !! "status" = Some models.ScheduleStatus_ACTIVE
    /\ s !! "created_at" = Some (VDatetime sample.now).
Proof.
  apply (schedule_create_builds_schedule sample.clock sample.clock
           (sample.schedule (Some [0; 2; 4]))).
  apply model_validate_inr. split; [vm_compute; reflexivity | reflexivity].
Defined.

End schema.
